(** * GrameenCredit: the alternative credit scoring engine

    A shallow embedding of [server/models/CreditAnalysis.js] (the aggregator,
    the risk classifier and the recommendation generator) and of
    [server/services/creditScoringService.js] (the source analysers, the
    component scorer, the signal analyser, the confidence estimator and the
    public entry point), of the loan and user documents
    ([server/models/Loan.js]), the eligibility gates
    ([server/middleware/auth.js]), the loan application and the instalment
    payment of the loan routes, the verification of one-time passwords
    ([server/services/smsService.js]) and the retry count of the sync queue
    ([server/middleware/cache.js]), followed by the properties of the
    engine and of the loan life cycle.

    Conventions of the embedding.
    - A JavaScript number is an exact rational ([Q]); counts and rounded
      scores are integers ([Z]).  [undefined] is [None].  The two functions
      that take a square root, [calculateBalanceStability] and
      [calculateRegularityScore], are embedded over the reals with the
      non-finite values written out (modules [BalanceStability] and
      [RegularityScore]).
    - A computation that may raise is a value of [result]; [try]/[catch] is
      [try_catch]; an identifier that is bound nowhere in its module raises
      a [ReferenceError] when it is called ([unbound]).
    - A method that assigns to [this] returns the updated document next to
      its return value. *)

From Stdlib Require Import ZArith QArith Qround Qminmax String Ascii List Bool.
From Stdlib Require Import Lia Lqa.
From Stdlib Require Reals Lra.
From Stdlib Require Import Qpower.
From Stdlib Require FinFun.
Import ListNotations.

Set Implicit Arguments.

(* ================================================================== *)
(** * JavaScript values and outcomes *)
(* ================================================================== *)

Module Js.

Inductive error : Type :=
| ReferenceError (identifier : string)   (* "<identifier> is not defined" *)
| TypeError (what : string)
| Error (message : string).

Inductive result (A : Type) : Type :=
| Ok (a : A)
| Throw (e : error).
Arguments Ok {A} a.
Arguments Throw {A} e.

Definition bind {A B} (m : result A) (k : A -> result B) : result B :=
  match m with
  | Ok a => k a
  | Throw e => Throw e
  end.

(** [try { body } catch (error) { handler }] *)
Definition try_catch {A} (body : result A) (handler : error -> result A)
  : result A :=
  match body with
  | Ok a => Ok a
  | Throw e => handler e
  end.

(** A call of an identifier that no declaration binds. *)
Definition unbound {A} (identifier : string) : result A :=
  Throw (ReferenceError identifier).

(** [for (const x of xs) { body }] over loop-carried state. *)
Fixpoint for_of {A S} (xs : list A) (body : A -> S -> result S) (s : S)
  : result S :=
  match xs with
  | [] => Ok s
  | x :: rest => bind (body x s) (for_of rest body)
  end.

(** [Math.round]: the nearest integer, halves towards plus infinity. *)
Definition Math_round (x : Q) : Z := Qfloor (x + (1 # 2)).

Definition Qltb (x y : Q) : bool := negb (Qle_bool y x).

Definition Math_min (x y : Q) : Q := if Qle_bool x y then x else y.
Definition Math_max (x y : Q) : Q := if Qle_bool x y then y else x.

(** Truthiness of a possibly absent number: [undefined] and [0] are
    falsy. *)
Definition truthy (x : option Q) : bool :=
  match x with
  | Some q => negb (Qeq_bool q 0)
  | None => false
  end.

(** [x >= n] for a possibly absent integer: a comparison with [undefined]
    is false. *)
Definition geb (x : option Z) (n : Z) : bool :=
  match x with
  | Some z => (n <=? z)%Z
  | None => false
  end.

(** A field of the request payload that should hold an array. *)
Inductive payload (A : Type) : Type :=
| Absent                    (* [undefined], [null] or another falsy value *)
| Items (l : list A)        (* an array *)
| NotIterable.              (* a truthy value that is neither iterable nor
                               has a [length] or a [filter], such as a
                               number or a plain object *)
Arguments Absent {A}.
Arguments Items {A} l.
Arguments NotIterable {A}.

(** [field || []] *)
Definition or_empty {A} (field : payload A) : payload A :=
  match field with
  | Absent => Items []
  | other => other
  end.

(** [field?.length || 0] *)
Definition length_or_zero {A} (field : payload A) : Z :=
  match field with
  | Items l => Z.of_nat (List.length l)
  | _ => 0%Z
  end.

(** [s.toLowerCase()] on the ASCII letters. *)
Definition lower (c : ascii) : ascii :=
  let n := nat_of_ascii c in
  if ((65 <=? n) && (n <=? 90))%nat then ascii_of_nat (n + 32) else c.

Fixpoint toLowerCase (s : string) : string :=
  match s with
  | EmptyString => EmptyString
  | String c rest => String (lower c) (toLowerCase rest)
  end.

(** [s.includes(needle)] *)
Fixpoint includes (needle s : string) : bool :=
  String.prefix needle s ||
  match s with
  | EmptyString => false
  | String _ rest => includes needle rest
  end.

End Js.

Import Js.

Declare Scope js_scope.
Notation "x <- m ;; k" := (bind m (fun x => k))
  (at level 61, m at next level, right associativity) : js_scope.
Local Open Scope js_scope.
Local Open Scope string_scope.
Local Open Scope Q_scope.

(* ================================================================== *)
(** * The CreditAnalysis document (server/models/CreditAnalysis.js) *)
(* ================================================================== *)

Inductive Level : Type := low | medium | high.

Inductive PlanType : Type := prepaid | postpaid | unknown_plan.

Record SalaryCredit : Type := mkSalaryCredit {
  salary_amount : Q;
  salary_date : Z;
  salary_source : string
}.

Record RecurringPayment : Type := mkRecurringPayment {
  recurring_merchant : string;
  recurring_amount : Q;
  recurring_frequency : string;
  recurring_lastPayment : Z
}.

Record SMSAnalysis : Type := mkSMSAnalysis {
  totalTransactions : Z;
  creditTransactions : Z;
  debitTransactions : Z;
  averageBalance : Q;
  balanceStability : Q;
  regularityScore : Q;
  merchantDiversity : Q;
  salaryCredits : list SalaryCredit;
  recurringPayments : list RecurringPayment
}.

Record MerchantCategory : Type := mkMerchantCategory {
  category : string;
  transactionCount : Z;
  totalAmount : Q
}.

Record UPIAnalysis : Type := mkUPIAnalysis {
  monthlyTransactionCount : Z;
  averageTransactionAmount : Q;
  totalVolume : Q;
  paymentRegularity : Q;
  digitalFootprintScore : Q;
  merchantCategories : list MerchantCategory;
  peakTransactionHours : list Z;
  weekdayVsWeekendRatio : option Q
}.

Record MobileAnalysis : Type := mkMobileAnalysis {
  rechargeFrequency : Z;
  averageRechargeAmount : Q;
  planType : PlanType;
  dataUsagePattern : Level;
  consistencyScore : Q
}.

Record Component : Type := mkComponent {
  score : option Q;
  weight : option Q;
  factors : list string
}.

Record CreditScoreComponents : Type := mkComponents {
  transactionBehavior : Component;
  paymentRegularity_component : Component;
  digitalEngagement : Component;
  financialStability : Component;
  socialSignals : Component
}.

Record Flag : Type := mkFlag {
  flag_type : string;
  flag_level : Level;            (* [severity] or [strength] *)
  flag_description : string;
  flag_impact : Z
}.

Record DateRange : Type := mkDateRange {
  range_start : option Z;
  range_end : option Z
}.

Record DataSource : Type := mkDataSource {
  source : string;
  dataPoints : Z;
  dateRange : DateRange
}.

Record LoanRecommendation : Type := mkRecommendation {
  eligible : bool;
  maxLoanAmount : Z;
  recommendedAmount : Z;
  suggestedInterestRate : Q;
  maxTenure : Z;
  conditions : list string
}.

Record CreditAnalysis : Type := mkCreditAnalysis {
  userId : Z;
  smsAnalysis : SMSAnalysis;
  upiAnalysis : UPIAnalysis;
  mobileUsage : MobileAnalysis;
  creditScoreComponents : CreditScoreComponents;
  alternativeCreditScore : option Z;
  confidenceLevel : option Q;
  riskCategory : option Level;
  analysisDate : Z;
  dataSourcesUsed : list DataSource;
  redFlags : list Flag;
  positiveIndicators : list Flag;
  loanRecommendation : option LoanRecommendation
}.

(** Assignments to the fields of a document. *)
Definition set_smsAnalysis (v : SMSAnalysis) (d : CreditAnalysis) :=
  mkCreditAnalysis (userId d) v (upiAnalysis d) (mobileUsage d)
    (creditScoreComponents d) (alternativeCreditScore d) (confidenceLevel d)
    (riskCategory d) (analysisDate d) (dataSourcesUsed d) (redFlags d)
    (positiveIndicators d) (loanRecommendation d).

Definition set_upiAnalysis (v : UPIAnalysis) (d : CreditAnalysis) :=
  mkCreditAnalysis (userId d) (smsAnalysis d) v (mobileUsage d)
    (creditScoreComponents d) (alternativeCreditScore d) (confidenceLevel d)
    (riskCategory d) (analysisDate d) (dataSourcesUsed d) (redFlags d)
    (positiveIndicators d) (loanRecommendation d).

Definition set_mobileUsage (v : MobileAnalysis) (d : CreditAnalysis) :=
  mkCreditAnalysis (userId d) (smsAnalysis d) (upiAnalysis d) v
    (creditScoreComponents d) (alternativeCreditScore d) (confidenceLevel d)
    (riskCategory d) (analysisDate d) (dataSourcesUsed d) (redFlags d)
    (positiveIndicators d) (loanRecommendation d).

Definition set_creditScoreComponents (v : CreditScoreComponents)
  (d : CreditAnalysis) :=
  mkCreditAnalysis (userId d) (smsAnalysis d) (upiAnalysis d) (mobileUsage d)
    v (alternativeCreditScore d) (confidenceLevel d)
    (riskCategory d) (analysisDate d) (dataSourcesUsed d) (redFlags d)
    (positiveIndicators d) (loanRecommendation d).

Definition set_alternativeCreditScore (v : Z) (d : CreditAnalysis) :=
  mkCreditAnalysis (userId d) (smsAnalysis d) (upiAnalysis d) (mobileUsage d)
    (creditScoreComponents d) (Some v) (confidenceLevel d)
    (riskCategory d) (analysisDate d) (dataSourcesUsed d) (redFlags d)
    (positiveIndicators d) (loanRecommendation d).

Definition set_confidenceLevel (v : Q) (d : CreditAnalysis) :=
  mkCreditAnalysis (userId d) (smsAnalysis d) (upiAnalysis d) (mobileUsage d)
    (creditScoreComponents d) (alternativeCreditScore d) (Some v)
    (riskCategory d) (analysisDate d) (dataSourcesUsed d) (redFlags d)
    (positiveIndicators d) (loanRecommendation d).

Definition set_riskCategory (v : Level) (d : CreditAnalysis) :=
  mkCreditAnalysis (userId d) (smsAnalysis d) (upiAnalysis d) (mobileUsage d)
    (creditScoreComponents d) (alternativeCreditScore d) (confidenceLevel d)
    (Some v) (analysisDate d) (dataSourcesUsed d) (redFlags d)
    (positiveIndicators d) (loanRecommendation d).

Definition set_analysisDate (v : Z) (d : CreditAnalysis) :=
  mkCreditAnalysis (userId d) (smsAnalysis d) (upiAnalysis d) (mobileUsage d)
    (creditScoreComponents d) (alternativeCreditScore d) (confidenceLevel d)
    (riskCategory d) v (dataSourcesUsed d) (redFlags d)
    (positiveIndicators d) (loanRecommendation d).

Definition set_dataSourcesUsed (v : list DataSource) (d : CreditAnalysis) :=
  mkCreditAnalysis (userId d) (smsAnalysis d) (upiAnalysis d) (mobileUsage d)
    (creditScoreComponents d) (alternativeCreditScore d) (confidenceLevel d)
    (riskCategory d) (analysisDate d) v (redFlags d)
    (positiveIndicators d) (loanRecommendation d).

Definition set_redFlags (v : list Flag) (d : CreditAnalysis) :=
  mkCreditAnalysis (userId d) (smsAnalysis d) (upiAnalysis d) (mobileUsage d)
    (creditScoreComponents d) (alternativeCreditScore d) (confidenceLevel d)
    (riskCategory d) (analysisDate d) (dataSourcesUsed d) v
    (positiveIndicators d) (loanRecommendation d).

Definition set_positiveIndicators (v : list Flag) (d : CreditAnalysis) :=
  mkCreditAnalysis (userId d) (smsAnalysis d) (upiAnalysis d) (mobileUsage d)
    (creditScoreComponents d) (alternativeCreditScore d) (confidenceLevel d)
    (riskCategory d) (analysisDate d) (dataSourcesUsed d) (redFlags d)
    v (loanRecommendation d).

Definition set_loanRecommendation (v : LoanRecommendation)
  (d : CreditAnalysis) :=
  mkCreditAnalysis (userId d) (smsAnalysis d) (upiAnalysis d) (mobileUsage d)
    (creditScoreComponents d) (alternativeCreditScore d) (confidenceLevel d)
    (riskCategory d) (analysisDate d) (dataSourcesUsed d) (redFlags d)
    (positiveIndicators d) (Some v).

(** [new CreditAnalysis({ userId })]: the schema defaults; the paths without
    a default are [undefined], the arrays are empty. *)
Definition absentComponent : Component := mkComponent None None [].

Definition newCreditAnalysis (user : Z) (now : Z) : CreditAnalysis :=
  mkCreditAnalysis user
    (mkSMSAnalysis 0 0 0 0 0 0 0 [] [])
    (mkUPIAnalysis 0 0 0 0 0 [] [] None)
    (mkMobileAnalysis 0 0 unknown_plan medium 0)
    (mkComponents absentComponent absentComponent absentComponent
       absentComponent absentComponent)
    None None None now [] [] [] None.

(** [Object.keys(components)] goes through the five paths in the order of
    the schema. *)
Definition component_entries (c : CreditScoreComponents) : list Component :=
  [ transactionBehavior c; paymentRegularity_component c; digitalEngagement c;
    financialStability c; socialSignals c ].

(** One turn of the [forEach] in [calculateCreditScore]: the running pair is
    [(weightedScore, totalWeight)]. *)
Definition accumulate (acc : Q * Q) (component : Component) : Q * Q :=
  if truthy (score component) && truthy (weight component) then
    match score component, weight component with
    | Some s, Some w => (fst acc + s * w, snd acc + w)
    | _, _ => acc              (* not reached: a truthy value is defined *)
    end
  else acc.

Definition calculateCreditScore (this : CreditAnalysis)
  : CreditAnalysis * Z :=
  let components := creditScoreComponents this in
  let sums := fold_left accumulate (component_entries components) (0, 0) in
  let weightedScore := fst sums in
  let totalWeight := snd sums in
  if Qeq_bool totalWeight 0 then (this, 300%Z)   (* Minimum score *)
  else
    let normalizedScore := weightedScore / totalWeight in
    let final := Math_round (300 + normalizedScore * 6) in
    (set_alternativeCreditScore final this, final).

Definition determineRiskCategory (this : CreditAnalysis)
  : CreditAnalysis * Level :=
  let score := alternativeCreditScore this in
  let category :=
    if geb score 750 then low
    else if geb score 600 then medium
    else high in
  (set_riskCategory category this, category).

(** [recommendation.conditions.push(text)] *)
Definition push_condition (text : string) (r : LoanRecommendation)
  : LoanRecommendation :=
  mkRecommendation (eligible r) (maxLoanAmount r) (recommendedAmount r)
    (suggestedInterestRate r) (maxTenure r) (conditions r ++ [text])%list.

(** The four assignments of one tier, after [eligible = true]. *)
Definition set_terms (maxAmount recommended : Z) (rate : Q) (tenure : Z)
  (r : LoanRecommendation) : LoanRecommendation :=
  mkRecommendation true maxAmount recommended rate tenure (conditions r).

Definition is_medium (risk : option Level) : bool :=
  match risk with
  | Some medium => true
  | _ => false
  end.

Definition generateLoanRecommendation (this : CreditAnalysis)
  : CreditAnalysis * LoanRecommendation :=
  let score := alternativeCreditScore this in
  let risk := riskCategory this in
  let recommendation := mkRecommendation false 0 0 24 6 [] in
  let recommendation :=
    if geb score 600 then
      (* Loan amount based on score *)
      let recommendation :=
        if geb score 750 then set_terms 100000 50000 12 24 recommendation
        else if geb score 650 then set_terms 50000 25000 15 18 recommendation
        else set_terms 25000 15000 18 12 recommendation in
      (* Add conditions based on risk factors *)
      let recommendation :=
        if (0 <? Z.of_nat (List.length (redFlags this)))%Z
        then push_condition "Additional verification required" recommendation
        else recommendation in
      if is_medium risk
      then push_condition "Regular monitoring of repayment" recommendation
      else recommendation
    else
      push_condition "Consider building credit history"
        (push_condition "Credit score too low for loan approval"
           recommendation) in
  (set_loanRecommendation recommendation this, recommendation).

(* ================================================================== *)
(** * The scoring service (server/services/creditScoringService.js) *)
(* ================================================================== *)

(** ** The request payload *)

Inductive TransactionType : Type := credit | debit | unknown.

Record SMS : Type := mkSMS {
  message : option string;      (* [None]: no string under [message] *)
  date : option Z;
  sender : option string
}.

Record UPITransaction : Type := mkUPITransaction {
  upi_amount : Q;
  upi_merchant : option string;
  upi_timestamp : option Z
}.

Record MobileItem : Type := mkMobileItem {
  item_type : string;
  item_amount : Q;
  item_timestamp : option Z
}.

(** An element of a list is [None] when it is [null] or [undefined]. *)
Record UserData : Type := mkUserData {
  smsData : payload (option SMS);
  upiData : payload (option UPITransaction);
  mobileData : payload (option MobileItem);
  monthlyIncome : Q;
  occupation : string
}.

(** Reading a property of [entry]: a [TypeError] on [null]/[undefined]. *)
Definition deref {A} (entry : option A) : result A :=
  match entry with
  | Some a => Ok a
  | None => Throw (TypeError "Cannot read properties of undefined")
  end.

(** Calling a string method on [message]. *)
Definition as_string (message : option string) : result string :=
  match message with
  | Some text => Ok text
  | None => Throw (TypeError "Cannot read properties of undefined")
  end.

(** ** What the module takes from its surroundings *)

(** Built-ins and collaborators. *)
Record Host : Type := mkHost {
  (** [message.match(/Rs\.?\s*(\d+(?:,\d+)*(?:\.\d+)?)/i)], then
      [parseFloat] of the group without its commas *)
  matchAmount : string -> option Q;
  (** [CreditAnalysis.findOne({ userId })] *)
  findOne : Z -> result (option CreditAnalysis);
  (** [analysis.save()] *)
  save : CreditAnalysis -> result unit;
  (** [new Date()] *)
  now : Z
}.

(** Loop-carried state of the SMS and of the UPI analyser. *)
Record SmsLoop : Type := mkSmsLoop {
  sms_analysis : SMSAnalysis;
  totalBalance : Q;
  balances : list Q;
  merchants : list string;
  monthlyTransactions : list (string * Z)
}.

Record UpiLoop : Type := mkUpiLoop {
  upi_analysis : UPIAnalysis;
  upi_totalAmount : Q;
  categories : list (string * (Z * Q));
  hourCounts : list Z;
  weekdayCount : Z;
  weekendCount : Z
}.

(** The statements of the two analysers that follow the first call of an
    identifier bound nowhere.  Control never reaches them; they are left
    arbitrary, so that every property below holds whatever they compute. *)
Record Unreached : Type := mkUnreached {
  smsAfterMerchant :
    SMS -> Q -> TransactionType -> string -> SmsLoop -> result SmsLoop;
  smsAfterLoop : list (option SMS) -> SmsLoop -> result SMSAnalysis;
  upiAfterCategory : UPITransaction -> string -> UpiLoop -> result UpiLoop;
  upiAfterLoop : list (option UPITransaction) -> UpiLoop -> result UPIAnalysis
}.

(** ** Identifiers the module calls and binds nowhere *)

Definition extractMerchant (message : option string) : result string :=
  unbound "extractMerchant".

Definition categorizeMerchant (merchant : option string) : result string :=
  unbound "categorizeMerchant".

Definition calculateRechargeConsistency (recharges : list MobileItem)
  : result Q :=
  unbound "calculateRechargeConsistency".

(** ** Helper functions *)

Definition parseAmount (h : Host) (message : option string) : result Q :=
  text <- as_string message ;;
  Ok match matchAmount h text with
     | Some amount => amount
     | None => 0
     end.

Definition determineTransactionType (message : option string)
  : result TransactionType :=
  text <- as_string message ;;
  Ok (if includes "credited" (toLowerCase text)
         || includes "received" (toLowerCase text) then credit
      else if includes "debited" (toLowerCase text)
              || includes "paid" (toLowerCase text) then debit
      else unknown).

(** ** Default analysis functions *)

Definition getDefaultSMSAnalysis : SMSAnalysis :=
  mkSMSAnalysis 0 0 0 0 30 30 20 [] [].

Definition getDefaultUPIAnalysis : UPIAnalysis :=
  mkUPIAnalysis 0 0 0 30 20 [] [] (Some 0).

Definition getDefaultMobileAnalysis : MobileAnalysis :=
  mkMobileAnalysis 0 0 unknown_plan low 30.

(** ** The three source analysers *)

Definition sms_iteration (h : Host) (u : Unreached) (sms : option SMS)
  (st : SmsLoop) : result SmsLoop :=
  entry <- deref sms ;;
  amount <- parseAmount h (message entry) ;;
  type <- determineTransactionType (message entry) ;;
  merchant <- extractMerchant (message entry) ;;
  smsAfterMerchant u entry amount type merchant st.

Definition analyzeSMSTransactions (h : Host) (u : Unreached)
  (smsData : payload (option SMS)) : result SMSAnalysis :=
  try_catch
    match smsData with
    | Absent | Items [] => Ok getDefaultSMSAnalysis
    | NotIterable => Throw (TypeError "smsData is not iterable")
    | Items data =>
        let analysis :=
          mkSMSAnalysis (Z.of_nat (List.length data)) 0 0 0 0 0 0 [] [] in
        st <- for_of data (sms_iteration h u)
                (mkSmsLoop analysis 0 [] [] []) ;;
        smsAfterLoop u data st
    end
    (fun error => Ok getDefaultSMSAnalysis).

Definition upi_iteration (u : Unreached) (transaction : option UPITransaction)
  (st : UpiLoop) : result UpiLoop :=
  entry <- deref transaction ;;
  let st :=
    mkUpiLoop (upi_analysis st) (upi_totalAmount st + upi_amount entry)
      (categories st) (hourCounts st) (weekdayCount st) (weekendCount st) in
  category <- categorizeMerchant (upi_merchant entry) ;;
  upiAfterCategory u entry category st.

Definition analyzeUPITransactions (u : Unreached)
  (upiData : payload (option UPITransaction)) : result UPIAnalysis :=
  try_catch
    match upiData with
    | Absent | Items [] => Ok getDefaultUPIAnalysis
    | NotIterable => Throw (TypeError "upiData is not iterable")
    | Items data =>
        let analysis := mkUPIAnalysis 0 0 0 0 0 [] [] (Some 0) in
        st <- for_of data (upi_iteration u)
                (mkUpiLoop analysis 0 [] (repeat 0%Z 24) 0 0) ;;
        upiAfterLoop u data st
    end
    (fun error => Ok getDefaultUPIAnalysis).

(** [mobileData.filter(item => item.type === 'recharge')] *)
Fixpoint filter_recharges (data : list (option MobileItem))
  : result (list MobileItem) :=
  match data with
  | [] => Ok []
  | item :: rest =>
      entry <- deref item ;;
      kept <- filter_recharges rest ;;
      Ok (if String.eqb (item_type entry) "recharge" then entry :: kept
          else kept)
  end.

Definition analyzeMobileUsage (mobileData : payload (option MobileItem))
  : result MobileAnalysis :=
  try_catch
    match mobileData with
    | Absent | Items [] => Ok getDefaultMobileAnalysis
    | NotIterable => Throw (TypeError "mobileData.filter is not a function")
    | Items data =>
        let analysis := mkMobileAnalysis 0 0 unknown_plan medium 0 in
        recharges <- filter_recharges data ;;
        if (0 <? Z.of_nat (List.length recharges))%Z then
          let totalAmount :=
            fold_left (fun sum r => sum + item_amount r) recharges 0 in
          let average :=
            totalAmount / inject_Z (Z.of_nat (List.length recharges)) in
          let frequency := Z.of_nat (List.length recharges) in
          (* Determine plan type based on patterns *)
          let plan :=
            if Qltb 500 average then postpaid
            else if Qltb average 100 then prepaid
            else unknown_plan in
          (* Calculate consistency *)
          consistency <- calculateRechargeConsistency recharges ;;
          Ok (mkMobileAnalysis frequency average plan medium consistency)
        else Ok analysis
    end
    (fun error => Ok getDefaultMobileAnalysis).

(** ** Signals and confidence *)

Definition identifyRedFlags (smsAnalysis : SMSAnalysis)
  (upiAnalysis : UPIAnalysis) (mobileAnalysis : MobileAnalysis) : list Flag :=
  let flags := [] in
  let flags :=
    if Qltb (balanceStability smsAnalysis) 30
    then (flags ++ [mkFlag "low_balance_stability" high
                      "Highly volatile account balance" (-20)])%list
    else flags in
  let flags :=
    if Qltb (digitalFootprintScore upiAnalysis) 20
    then (flags ++ [mkFlag "low_digital_usage" medium
                      "Limited digital payment activity" (-10)])%list
    else flags in
  flags.

Definition identifyPositiveIndicators (smsAnalysis : SMSAnalysis)
  (upiAnalysis : UPIAnalysis) (mobileAnalysis : MobileAnalysis) : list Flag :=
  let indicators := [] in
  let indicators :=
    if (0 <? Z.of_nat (List.length (salaryCredits smsAnalysis)))%Z
    then (indicators ++ [mkFlag "regular_salary" high
                           "Regular salary credits detected" 25])%list
    else indicators in
  let indicators :=
    if Qltb 70 (digitalFootprintScore upiAnalysis)
    then (indicators ++ [mkFlag "high_digital_engagement" medium
                           "Strong digital payment adoption" 15])%list
    else indicators in
  indicators.

Definition calculateConfidenceLevel (smsAnalysis : SMSAnalysis)
  (upiAnalysis : UPIAnalysis) (mobileAnalysis : MobileAnalysis) : Q :=
  let confidence := 0.3 in       (* Base confidence *)
  let confidence :=
    if (50 <? totalTransactions smsAnalysis)%Z
    then confidence + 0.2 else confidence in
  let confidence :=
    if (10 <? monthlyTransactionCount upiAnalysis)%Z
    then confidence + 0.2 else confidence in
  let confidence :=
    if (5 <? rechargeFrequency mobileAnalysis)%Z
    then confidence + 0.1 else confidence in
  Math_min confidence 1.0.

(** ** The component scorer and the entry point *)

(** The module calls five more identifiers that it never binds:
    [calculateFinancialStabilityScore], [calculateSocialSignalsScore],
    [getSMSDateRange], [getUPIDateRange] and [getMobileDateRange].  The
    scorer and the entry point are first written over whatever these are
    bound to ([...With]); the module as it stands binds them to nothing. *)
Section FreeIdentifiers.

Variable calculateFinancialStabilityScore :
  SMSAnalysis -> UserData -> result Q.
Variable calculateSocialSignalsScore :
  UPIAnalysis -> MobileAnalysis -> result Q.
Variable getSMSDateRange : payload (option SMS) -> result DateRange.
Variable getUPIDateRange :
  payload (option UPITransaction) -> result DateRange.
Variable getMobileDateRange :
  payload (option MobileItem) -> result DateRange.

Definition rounded_mean (a b : Q) : option Q :=
  Some (inject_Z (Math_round ((a + b) / 2))).

(** The properties of the object literal are evaluated in order. *)
Definition calculateScoreComponentsWith (smsAnalysis : SMSAnalysis)
  (upiAnalysis : UPIAnalysis) (mobileAnalysis : MobileAnalysis)
  (userData : UserData) : result CreditScoreComponents :=
  let transactionBehavior :=
    mkComponent
      (rounded_mean (regularityScore smsAnalysis)
         (paymentRegularity upiAnalysis))
      (Some 0.25) ["SMS regularity"; "UPI payment patterns"] in
  let paymentRegularity :=
    mkComponent
      (rounded_mean (balanceStability smsAnalysis)
         (consistencyScore mobileAnalysis))
      (Some 0.20) ["Balance stability"; "Recharge consistency"] in
  let digitalEngagement :=
    mkComponent
      (rounded_mean (digitalFootprintScore upiAnalysis)
         (merchantDiversity smsAnalysis))
      (Some 0.20) ["UPI usage"; "Merchant diversity"] in
  stability <- calculateFinancialStabilityScore smsAnalysis userData ;;
  let financialStability :=
    mkComponent (Some stability) (Some 0.25)
      ["Average balance"; "Income regularity"] in
  social <- calculateSocialSignalsScore upiAnalysis mobileAnalysis ;;
  let socialSignals :=
    mkComponent (Some social) (Some 0.10)
      ["Transaction timing"; "Usage patterns"] in
  Ok (mkComponents transactionBehavior paymentRegularity digitalEngagement
        financialStability socialSignals).

Definition calculateAlternativeCreditScoreWith (h : Host) (u : Unreached)
  (userId : Z) (userData : UserData) : result CreditAnalysis :=
  try_catch
    ((* Get or create credit analysis record *)
     found <- findOne h userId ;;
     let analysis :=
       match found with
       | Some stored => stored
       | None => newCreditAnalysis userId (now h)
       end in
     (* Analyze different data sources *)
     smsAnalysis <-
       analyzeSMSTransactions h u (or_empty (smsData userData)) ;;
     upiAnalysis <- analyzeUPITransactions u (or_empty (upiData userData)) ;;
     mobileAnalysis <- analyzeMobileUsage (or_empty (mobileData userData)) ;;
     (* Update analysis with new data *)
     let analysis := set_smsAnalysis smsAnalysis analysis in
     let analysis := set_upiAnalysis upiAnalysis analysis in
     let analysis := set_mobileUsage mobileAnalysis analysis in
     (* Calculate component scores *)
     components <-
       calculateScoreComponentsWith smsAnalysis upiAnalysis mobileAnalysis
         userData ;;
     let analysis := set_creditScoreComponents components analysis in
     (* Calculate final credit score *)
     let analysis := fst (calculateCreditScore analysis) in
     let analysis := fst (determineRiskCategory analysis) in
     (* Generate recommendation *)
     let analysis := fst (generateLoanRecommendation analysis) in
     (* Identify red flags and positive indicators *)
     let analysis :=
       set_redFlags
         (identifyRedFlags smsAnalysis upiAnalysis mobileAnalysis)
         analysis in
     let analysis :=
       set_positiveIndicators
         (identifyPositiveIndicators smsAnalysis upiAnalysis mobileAnalysis)
         analysis in
     (* Set confidence level based on data quality *)
     let analysis :=
       set_confidenceLevel
         (calculateConfidenceLevel smsAnalysis upiAnalysis mobileAnalysis)
         analysis in
     (* Update metadata *)
     let analysis := set_analysisDate (now h) analysis in
     smsRange <- getSMSDateRange (smsData userData) ;;
     upiRange <- getUPIDateRange (upiData userData) ;;
     mobileRange <- getMobileDateRange (mobileData userData) ;;
     let analysis :=
       set_dataSourcesUsed
         [ mkDataSource "SMS" (length_or_zero (smsData userData)) smsRange;
           mkDataSource "UPI" (length_or_zero (upiData userData)) upiRange;
           mkDataSource "Mobile" (length_or_zero (mobileData userData))
             mobileRange ]
         analysis in
     saved <- save h analysis ;;
     Ok analysis)
    (fun error => Throw (Error "Failed to calculate credit score")).

End FreeIdentifiers.

(** The module as it stands. *)
Definition calculateScoreComponents :=
  calculateScoreComponentsWith
    (fun _ _ => unbound "calculateFinancialStabilityScore")
    (fun _ _ => unbound "calculateSocialSignalsScore").

Definition calculateAlternativeCreditScore :=
  calculateAlternativeCreditScoreWith
    (fun _ _ => unbound "calculateFinancialStabilityScore")
    (fun _ _ => unbound "calculateSocialSignalsScore")
    (fun _ => unbound "getSMSDateRange")
    (fun _ => unbound "getUPIDateRange")
    (fun _ => unbound "getMobileDateRange").

(** The request of the specification's empty-input case. *)
Definition emptyInput : UserData :=
  mkUserData (Items []) (Items []) (Items []) 0 "other".

(** A host whose store holds no analysis and accepts every save. *)
Definition freshHost : Host :=
  mkHost (fun _ => None) (fun _ => Ok None) (fun _ => Ok tt) 0%Z.

(** Some filling of the unreached statements. *)
Definition idle : Unreached :=
  mkUnreached (fun _ _ _ _ st => Ok st)
    (fun _ st => Ok (sms_analysis st))
    (fun _ _ st => Ok st)
    (fun _ st => Ok (upi_analysis st)).

(* ================================================================== *)
(** * calculateBalanceStability, over the reals *)
(* ================================================================== *)

Module BalanceStability.

Import Reals Lra.
Local Open Scope R_scope.

(** A JavaScript number: a real, or one of the three non-finite values. *)
Inductive number : Type :=
| Finite (r : R)
| NaN
| PosInfinity
| NegInfinity.

(** [a / b] for finite [a] and [b]; a zero [b] is the positive zero, the
    only zero a sum started at [0] can be. *)
Definition divide (a b : R) : number :=
  if Req_dec_T b 0 then
    if Req_dec_T a 0 then NaN
    else if Rlt_dec 0 a then PosInfinity else NegInfinity
  else Finite (a / b).

(** [x * k] for a finite [k] *)
Definition times (x : number) (k : R) : number :=
  match x with
  | Finite r => Finite (r * k)
  | NaN => NaN
  | PosInfinity =>
      if Rlt_dec 0 k then PosInfinity
      else if Rlt_dec k 0 then NegInfinity else NaN
  | NegInfinity =>
      if Rlt_dec 0 k then NegInfinity
      else if Rlt_dec k 0 then PosInfinity else NaN
  end.

(** [k - x] for a finite [k] *)
Definition minus_from (k : R) (x : number) : number :=
  match x with
  | Finite r => Finite (k - r)
  | NaN => NaN
  | PosInfinity => NegInfinity
  | NegInfinity => PosInfinity
  end.

(** [Math.min(k, x)] and [Math.max(k, x)] for a finite [k]: [NaN] as soon
    as an argument is [NaN]. *)
Definition Math_min (k : R) (x : number) : number :=
  match x with
  | Finite r => Finite (Rmin k r)
  | NaN => NaN
  | PosInfinity => Finite k
  | NegInfinity => NegInfinity
  end.

Definition Math_max (k : R) (x : number) : number :=
  match x with
  | Finite r => Finite (Rmax k r)
  | NaN => NaN
  | PosInfinity => PosInfinity
  | NegInfinity => Finite k
  end.

Definition mean_of (balances : list R) : R :=
  fold_left (fun a b => a + b) balances 0 / INR (List.length balances).

Definition variance_of (balances : list R) : R :=
  let mean := mean_of balances in
  fold_left (fun sum balance => sum + (balance - mean) ^ 2) balances 0
  / INR (List.length balances).

Definition calculateBalanceStability (balances : list R) : number :=
  if (List.length balances <? 2)%nat then Finite 50
  else
    let mean := mean_of balances in
    let variance := variance_of balances in
    let coefficient := divide (sqrt variance) mean in
    Math_max 0 (Math_min 100 (minus_from 100 (times coefficient 100))).

(** The specification's formula:
    [100 * (1 - min(1, stdDev(balances) / mean(balances)))], and 50 with
    fewer than two readings. *)
Definition spec_balanceStability (balances : list R) : R :=
  if (List.length balances <? 2)%nat then 50
  else 100 * (1 - Rmin 1 (sqrt (variance_of balances) / mean_of balances)).

Definition in_range (x : number) : Prop :=
  match x with
  | Finite r => 0 <= r <= 100
  | _ => False
  end.

End BalanceStability.

(* ================================================================== *)
(** * The specification's formulas *)
(* ================================================================== *)

(** An absent number counts for nothing in a sum. *)
Definition value (x : option Q) : Q :=
  match x with
  | Some q => q
  | None => 0
  end.

Definition weighted (c : Component) : Q := value (score c) * value (weight c).

Definition weightOf (c : Component) : Q := value (weight c).

(** The sum of [f] over the components [cs]. *)
Definition total (f : Component -> Q) (cs : list Component) : Q :=
  fold_right (fun c rest => f c + rest) 0 cs.


(** [round(300 + 6 * (sum of score*weight / sum of weight))] over the
    components [cs], and the scale minimum when the weights sum to zero. *)
Definition aggregate (cs : list Component) : Z :=
  if Qeq_bool (total weightOf cs) 0 then 300%Z
  else Math_round (300 + 6 * (total weighted cs / total weightOf cs)).


(** The components [calculateCreditScore] counts: those whose score and
    whose weight are both truthy. *)
Definition counted (c : Component) : bool :=
  truthy (score c) && truthy (weight c).

(** Five scores under the fixed weights of the component scorer. *)
Definition withFixedWeights (s1 s2 s3 s4 s5 : Q) : CreditScoreComponents :=
  mkComponents
    (mkComponent (Some s1) (Some 0.25)
       ["SMS regularity"; "UPI payment patterns"])
    (mkComponent (Some s2) (Some 0.20)
       ["Balance stability"; "Recharge consistency"])
    (mkComponent (Some s3) (Some 0.20) ["UPI usage"; "Merchant diversity"])
    (mkComponent (Some s4) (Some 0.25)
       ["Average balance"; "Income regularity"])
    (mkComponent (Some s5) (Some 0.10)
       ["Transaction timing"; "Usage patterns"]).


(** A recommendation block: maximum amount, recommended amount, interest
    rate and maximum tenure. *)
Definition block (maxAmount recommended : Z) (rate : Q) (tenure : Z)
  : Z * Z * Q * Z :=
  (maxAmount, recommended, rate, tenure).

(** Section 4.8: the recommendation block of a score that is eligible. *)
Definition spec_terms (score : Z) : Z * Z * Q * Z :=
  if (score <? 650)%Z then block 25000 15000 18 12
  else if (score <? 750)%Z then block 50000 25000 15 18
  else block 100000 50000 12 24.

Definition terms_of (r : LoanRecommendation) : Z * Z * Q * Z :=
  block (maxLoanAmount r) (recommendedAmount r) (suggestedInterestRate r)
    (maxTenure r).

(** A red flag, for the examples. *)
Definition volatileBalance : Flag :=
  mkFlag "low_balance_stability" high "Highly volatile account balance" (-20).

(** ** Sample inputs *)

(** A fresh document that holds the components [c]. *)
Definition documentOf (c : CreditScoreComponents) : CreditAnalysis :=
  set_creditScoreComponents c (newCreditAnalysis 1 0).


(** A well-formed SMS record, and a request that carries [n] of them. *)
Definition creditSms : SMS :=
  mkSMS (Some "Rs.1,500.00 credited to your account. Balance Rs.4,200")
    (Some 0%Z) (Some "BANK").

Definition requestWithSms (n : nat) : UserData :=
  mkUserData (Items (repeat (Some creditSms) n)) Absent Absent 12000 "farmer".

(** Equality of two running pairs of sums, as rationals. *)
Definition same_sums (p q : Q * Q) : Prop :=
  fst p == fst q /\ snd p == snd q.

(* ================================================================== *)
(** * Auxiliary definitions for the further properties *)
(* ================================================================== *)




(** The summary [analyzeMobileUsage] starts from. *)
Definition initialMobileAnalysis : MobileAnalysis :=
  mkMobileAnalysis 0 0 unknown_plan medium 0.

(** No entry of [data] is [null] and none is a recharge. *)
Definition withoutRecharge (data : list (option MobileItem)) : bool :=
  forallb
    (fun item =>
       match item with
       | Some entry => negb (String.eqb (item_type entry) "recharge")
       | None => false
       end)
    data.

Definition nonEmpty {A} (l : list A) : bool :=
  match l with
  | [] => false
  | _ :: _ => true
  end.

(** A document that holds a score of 800 from an earlier run and whose
    five components are now all scored 0. *)
Definition staleDocument : CreditAnalysis :=
  set_alternativeCreditScore 800 (documentOf (withFixedWeights 0 0 0 0 0)).

(* ================================================================== *)
(** * calculateRegularityScore, over the reals *)
(* ================================================================== *)

Module RegularityScore.

Import Reals Lra BalanceStability.
Local Open Scope R_scope.

(** The object [monthlyTransactions] as its list of entries: a month
    ("2024-03") and the number of transactions counted for it.  The mean
    and the variance are the expressions of [calculateBalanceStability],
    applied to [Object.values]. *)
Definition calculateRegularityScore
  (monthlyTransactions : list (string * R)) : number :=
  let months := map fst monthlyTransactions in
  if (List.length months <? 2)%nat then Finite 30
  else
    let counts := map snd monthlyTransactions in
    let mean := mean_of counts in
    let variance := variance_of counts in
    Math_max 0
      (Math_min 100
         (minus_from 100 (times (divide (sqrt variance) mean) 50))).

End RegularityScore.

(* ================================================================== *)
(** * The Loan document (server/models/Loan.js) *)
(* ================================================================== *)

Inductive InstallmentStatus : Type :=
  emi_pending | emi_paid | emi_overdue | emi_partial.

Inductive LoanStatus : Type :=
  loan_pending | under_review | approved | rejected | disbursed | closed.

(** An amount that [calculateEMI] assigns is [None] when it is no finite
    number (the division by zero of the formula), and before it is
    assigned. *)
Record Installment : Type := mkInstallment {
  emiNumber : Z;
  dueDate : Z;
  emi_amount : option Z;
  emi_status : InstallmentStatus;
  paidDate : option Z;
  paidAmount : option Q
}.

Record StatusEntry : Type := mkStatusEntry {
  entry_status : LoanStatus;
  entry_timestamp : Z;
  entry_reason : string;
  entry_updatedBy : string
}.

(** [tenure] is a whole number of months. *)
Record Loan : Type := mkLoan {
  loan_amount : Q;
  interestRate : Q;
  tenure : nat;
  emiAmount : option Z;
  loan_totalAmount : option Z;
  loan_status : LoanStatus;
  disbursalDate : option Z;
  repaymentSchedule : list Installment;
  statusHistory : list StatusEntry
}.

Definition set_emi (emi total : option Z) (l : Loan) : Loan :=
  mkLoan (loan_amount l) (interestRate l) (tenure l) emi total
    (loan_status l) (disbursalDate l) (repaymentSchedule l)
    (statusHistory l).

Definition set_repaymentSchedule (schedule : list Installment) (l : Loan)
  : Loan :=
  mkLoan (loan_amount l) (interestRate l) (tenure l) (emiAmount l)
    (loan_totalAmount l) (loan_status l) (disbursalDate l) schedule
    (statusHistory l).

Definition set_loan_status (status : LoanStatus) (l : Loan) : Loan :=
  mkLoan (loan_amount l) (interestRate l) (tenure l) (emiAmount l)
    (loan_totalAmount l) status (disbursalDate l) (repaymentSchedule l)
    (statusHistory l).

Definition push_history (entry : StatusEntry) (l : Loan) : Loan :=
  mkLoan (loan_amount l) (interestRate l) (tenure l) (emiAmount l)
    (loan_totalAmount l) (loan_status l) (disbursalDate l)
    (repaymentSchedule l) (statusHistory l ++ [entry])%list.

(** The instalment before rounding:
    [principal * rate * (1 + rate)^tenure / ((1 + rate)^tenure - 1)]. *)
Definition exactEMI (principal rate : Q) (months : nat) : Q :=
  (principal * rate * (1 + rate) ^ Z.of_nat months)
  / ((1 + rate) ^ Z.of_nat months - 1).

Definition calculateEMI (this : Loan) : Loan * option Z :=
  let principal := loan_amount this in
  let rate := interestRate this / 100 / 12 in   (* Monthly interest rate *)
  let months := tenure this in
  if Qeq_bool ((1 + rate) ^ Z.of_nat months - 1) 0
  then (set_emi None None this, None)            (* NaN or an infinity *)
  else
    let emi := exactEMI principal rate months in
    (set_emi (Some (Math_round emi))
       (Some (Math_round (emi * inject_Z (Z.of_nat months)))) this,
     Some (Math_round emi)).

Definition is_pending (emi : Installment) : bool :=
  match emi_status emi with
  | emi_pending => true
  | _ => false
  end.

Definition is_paid (emi : Installment) : bool :=
  match emi_status emi with
  | emi_paid => true
  | _ => false
  end.

(** [addMonths start i] is the date [start] moved on by [i] months
    ([setMonth(getMonth() + i)]); [now] is [new Date()]. *)
Definition generateRepaymentSchedule (addMonths : Z -> Z -> Z) (now : Z)
  (this : Loan) : Loan * list Installment :=
  let startDate :=
    match disbursalDate this with
    | Some d => d
    | None => now
    end in
  let schedule :=
    map (fun i =>
           mkInstallment (Z.of_nat i) (addMonths startDate (Z.of_nat i))
             (emiAmount this) emi_pending None None)
      (seq 1 (tenure this)) in
  (set_repaymentSchedule schedule this, schedule).

Definition getNextEMI (this : Loan) : option Installment :=
  find is_pending (repaymentSchedule this).


Definition canBeClosed (this : Loan) : bool :=
  forallb is_paid (repaymentSchedule this).

Definition addStatusHistory (now : Z) (status : LoanStatus) (reason : string)
  (updatedBy : option string) (this : Loan) : Loan :=
  let by_whom :=
    match updatedBy with
    | Some name => name
    | None => "system"
    end in
  set_loan_status status
    (push_history (mkStatusEntry status now reason by_whom) this).

(** ** Paying an instalment (the [pay-emi] route)

    [paidAt] and [closedAt] are the two readings of the clock, for the
    payment and for the entry of the history. *)

Inductive PaymentAnswer : Type :=
| EmiNotFound                                   (* 404 *)
| EmiAlreadyPaid                                (* 400 *)
| InsufficientAmount (required : option Z)      (* 400 *)
| PaymentAccepted (loan : Loan) (clearsUserLoan : bool).

(** [amount < emi.amount]: a comparison with a missing amount is false. *)
Definition below (amount : Q) (required : option Z) : bool :=
  match required with
  | Some r => Qltb amount (inject_Z r)
  | None => false
  end.

Definition mark_paid (now : Z) (amount : Q) (emi : Installment)
  : Installment :=
  mkInstallment (emiNumber emi) (dueDate emi) (emi_amount emi) emi_paid
    (Some now) (Some amount).

(** The schedule with the first instalment numbered [number] replaced by
    [f] of it: the assignment at [findIndex]. *)
Fixpoint update_first (number : Z) (f : Installment -> Installment)
  (schedule : list Installment) : list Installment :=
  match schedule with
  | [] => []
  | emi :: rest =>
      if (emiNumber emi =? number)%Z then f emi :: rest
      else emi :: update_first number f rest
  end.

Definition payEMI (paidAt closedAt : Z) (number : Z) (amount : Q)
  (loan : Loan) : PaymentAnswer :=
  match find (fun emi => (emiNumber emi =? number)%Z)
          (repaymentSchedule loan) with
  | None => EmiNotFound
  | Some emi =>
      if is_paid emi then EmiAlreadyPaid
      else if below amount (emi_amount emi)
      then InsufficientAmount (emi_amount emi)
      else
        let loan :=
          set_repaymentSchedule
            (update_first number (mark_paid paidAt amount)
               (repaymentSchedule loan))
            loan in
        if canBeClosed loan
        then PaymentAccepted
               (addStatusHistory closedAt closed
                  "All EMIs paid successfully" None
                  (set_loan_status closed loan))
               true
        else PaymentAccepted loan false
  end.

(** The instalment [generateRepaymentSchedule] pushes in turn [i]. *)
Definition scheduled (addMonths : Z -> Z -> Z) (startDate : Z)
  (amount : option Z) (i : nat) : Installment :=
  mkInstallment (Z.of_nat i) (addMonths startDate (Z.of_nat i)) amount
    emi_pending None None.

Definition startDateOf (now : Z) (this : Loan) : Z :=
  match disbursalDate this with
  | Some d => d
  | None => now
  end.

(** Paying the instalments [numbers] one after the other, each with
    [amount]; [None] as soon as a payment is refused. *)
Fixpoint payInTurn (paidAt closedAt : Z) (amount : Q) (numbers : list Z)
  (loan : Loan) : option Loan :=
  match numbers with
  | [] => Some loan
  | number :: rest =>
      match payEMI paidAt closedAt number amount loan with
      | PaymentAccepted loan' _ =>
          payInTurn paidAt closedAt amount rest loan'
      | _ => None
      end
  end.

(* ================================================================== *)
(** * The User document and the eligibility gate
      (server/models/User.js, server/middleware/auth.js) *)
(* ================================================================== *)

Record User : Type := mkUser {
  aadhaarVerified : bool;
  panVerified : bool;
  smsAnalysisConsent : bool;
  upiAnalysisConsent : bool;
  user_monthlyIncome : option Q;
  totalLoansApproved : Z;
  currentLoanAmount : Q;
  fraudFlags : list string;
  isActive : bool
}.

Definition isEligibleForLoan (this : User) : bool :=
  aadhaarVerified this && panVerified this
  && Qeq_bool (currentLoanAmount this) 0 && isActive this.

(** [this.monthlyIncome > n]: false for a missing income. *)
Definition income_above (income : option Q) (n : Q) : bool :=
  match income with
  | Some q => Qltb n q
  | None => false
  end.

(** The running [score] of [getRiskAssessment]. *)
Definition riskPoints (this : User) : Z :=
  let score := 0%Z in
  (* Positive factors *)
  let score := if aadhaarVerified this then (score + 10)%Z else score in
  let score := if panVerified this then (score + 10)%Z else score in
  let score := if smsAnalysisConsent this then (score + 15)%Z else score in
  let score := if upiAnalysisConsent this then (score + 15)%Z else score in
  let score :=
    if income_above (user_monthlyIncome this) 10000
    then (score + 20)%Z else score in
  let score :=
    if (0 <? totalLoansApproved this)%Z then (score + 25)%Z else score in
  (* Negative factors *)
  let score :=
    if (0 <? Z.of_nat (List.length (fraudFlags this)))%Z
    then (score - 30)%Z else score in
  let score :=
    if Qltb 0 (currentLoanAmount this) then (score - 20)%Z else score in
  score.

Definition getRiskAssessment (this : User) : Level :=
  let score := riskPoints this in
  if (60 <=? score)%Z then low
  else if (30 <=? score)%Z then medium
  else high.

Inductive GateAnswer : Type :=
| Next
| Forbidden (reasons : list string).          (* 403 *)

(** [condition && text], kept by [filter(Boolean)] when it is a text. *)
Definition reason_if (condition : bool) (text : string) : list string :=
  if condition then [text] else [].

Definition requireLoanEligibility (userData : User) : GateAnswer :=
  if negb (isEligibleForLoan userData) then
    Forbidden
      (reason_if (negb (aadhaarVerified userData))
         "Aadhaar verification required"
       ++ reason_if (negb (panVerified userData))
            "PAN verification required"
       ++ reason_if (Qltb 0 (currentLoanAmount userData))
            "Existing loan must be cleared"
       ++ reason_if (negb (isActive userData)) "Account is inactive")%list
  else Next.

Definition requireVerifiedIdentity (userData : User) : GateAnswer :=
  if negb (aadhaarVerified userData) || negb (panVerified userData)
  then Forbidden ["Identity verification required"]
  else Next.

(** The points a factor contributes. *)
Definition points (applies : bool) (k : Z) : Z :=
  if applies then k else 0%Z.

(** A worse tier has a higher rank. *)
Definition rank (tier : Level) : Z :=
  match tier with
  | low => 0
  | medium => 1
  | high => 2
  end.

(** [better] has every positive factor of [worse] and no negative factor
    that [worse] is free of. *)
Definition at_least_as_good (better worse : User) : Prop :=
  (aadhaarVerified worse = true -> aadhaarVerified better = true) /\
  (panVerified worse = true -> panVerified better = true) /\
  (smsAnalysisConsent worse = true -> smsAnalysisConsent better = true) /\
  (upiAnalysisConsent worse = true -> upiAnalysisConsent better = true) /\
  (income_above (user_monthlyIncome worse) 10000 = true ->
   income_above (user_monthlyIncome better) 10000 = true) /\
  (0 < totalLoansApproved worse -> 0 < totalLoansApproved better)%Z /\
  (fraudFlags better <> [] -> fraudFlags worse <> []) /\
  (0 < currentLoanAmount better -> 0 < currentLoanAmount worse).

(* ================================================================== *)
(** * The loan application (the [apply] route) *)
(* ================================================================== *)

(** What the handler answers once the request body is validated and the
    user is found, up to the saving of the loan. *)
Record Application : Type := mkApplication {
  application_loan : Loan;               (* after [calculateEMI] *)
  application_creditScore : option Z;
  application_riskScore : option Q;      (* [None]: NaN *)
  application_confidence : option Q;
  application_reason : string;           (* the reason put in the history *)
  approves_user : bool                   (* the user's loan count is raised *)
}.

Inductive ApplicationAnswer : Type :=
| CreditAnalysisRequired                                     (* 400 *)
| ExceedsLimit (maxAllowed recommended : option Z)           (* 400 *)
| Submitted (application : Application).

(** [amount > maxAllowed]: false for a missing limit. *)
Definition exceeds (amount : Q) (maxAllowed : option Z) : bool :=
  match maxAllowed with
  | Some limit => Qltb (inject_Z limit) amount
  | None => false
  end.

(** [rate || 18.0] *)
Definition rate_or_default (rate : option Q) : Q :=
  match rate with
  | Some r => if Qeq_bool r 0 then 18 else r
  | None => 18
  end.

(** [confidence >= n]: false for a missing confidence. *)
Definition confidence_at_least (confidence : option Q) (n : Q) : bool :=
  match confidence with
  | Some c => Qle_bool n c
  | None => false
  end.

(** [score < n]: false for a missing score. *)
Definition score_below (score : option Z) (n : Z) : bool :=
  match score with
  | Some s => (s <? n)%Z
  | None => false
  end.

Definition applyForLoan (now : Z) (creditAnalysis : option CreditAnalysis)
  (amount : Q) (months : nat) : ApplicationAnswer :=
  match creditAnalysis with
  | None => CreditAnalysisRequired
  | Some creditAnalysis =>
      (* Check if requested amount is within recommended limits *)
      let maxAllowed :=
        option_map maxLoanAmount (loanRecommendation creditAnalysis) in
      if exceeds amount maxAllowed then
        ExceedsLimit maxAllowed
          (option_map recommendedAmount (loanRecommendation creditAnalysis))
      else
        (* Calculate interest rate based on credit score and risk *)
        let interestRate :=
          rate_or_default
            (option_map suggestedInterestRate
               (loanRecommendation creditAnalysis)) in
        (* Adjust based on amount and tenure *)
        let interestRate :=
          if Qltb 50000 amount then interestRate + 1 else interestRate in
        let interestRate :=
          if (18 <? months)%nat then interestRate + 0.5 else interestRate in
        let score := alternativeCreditScore creditAnalysis in
        let riskScore :=
          option_map (fun s => (100 - inject_Z s) / 10) score in
        let loan :=
          mkLoan amount interestRate months None None loan_pending None
            [] [] in
        (* Calculate EMI *)
        let loan := fst (calculateEMI loan) in
        (* Auto-approve based on credit score and confidence *)
        let decision :=
          if geb score 650
             && confidence_at_least (confidenceLevel creditAnalysis) 0.7
          then (approved, "Auto-approved based on strong credit profile",
                true)
          else if score_below score 500
          then (rejected, "Credit score below minimum threshold", false)
          else (under_review, "Application submitted", false) in
        let status := fst (fst decision) in
        let reason := snd (fst decision) in
        (* Add status to history *)
        let loan :=
          addStatusHistory now status reason None
            (set_loan_status status loan) in
        Submitted
          (mkApplication loan score riskScore
             (confidenceLevel creditAnalysis) reason (snd decision))
  end.

(* ================================================================== *)
(** * One-time passwords and the sync queue
      (server/services/smsService.js, server/middleware/cache.js) *)
(* ================================================================== *)

(** A [NodeCache] as the lookup it answers: [None] for a key that was never
    set, was deleted or has expired. *)
Definition Cache (V : Type) : Type := string -> option V.

Definition cache_set {V} (key : string) (value : V) (cache : Cache V)
  : Cache V :=
  fun k => if String.eqb k key then Some value else cache k.

Definition cache_del {V} (key : string) (cache : Cache V) : Cache V :=
  fun k => if String.eqb k key then None else cache k.

(** [verifyOTP]: the answer and the cache it leaves. *)
Definition verifyOTP (phoneNumber providedOTP : string)
  (otpCache : Cache string) : bool * Cache string :=
  match otpCache phoneNumber with
  | None => (false, otpCache)              (* OTP expired or not found *)
  | Some storedOTP =>
      if String.eqb storedOTP "" then (false, otpCache)
      else if String.eqb storedOTP providedOTP
      then (true, cache_del phoneNumber otpCache)
      else (false, otpCache)
  end.

Record SyncItem : Type := mkSyncItem {
  sync_action : string;
  sync_data : string;
  sync_timestamp : Z;
  retryCount : Z
}.

Definition incrementRetryCount (syncKey : string)
  (syncQueue : Cache SyncItem) : Cache SyncItem :=
  match syncQueue syncKey with
  | Some item =>
      let item :=
        mkSyncItem (sync_action item) (sync_data item)
          (sync_timestamp item) (retryCount item + 1) in
      if (3 <? retryCount item)%Z
      then cache_del syncKey syncQueue     (* Remove after 3 failed attempts *)
      else cache_set syncKey item syncQueue
  | None => syncQueue
  end.

(* ================================================================== *)
(** * Properties of the model methods *)
(* ================================================================== *)

Lemma geb_some (z n : Z) : geb (Some z) n = (n <=? z)%Z.
Proof. reflexivity. Qed.

(** C5. For every final score [determineRiskCategory] answers [low] exactly
    when the score is at least 750, [medium] exactly when it lies between
    600 and 749, and [high] exactly when it is below 600; the answer is also
    what the method stores in [riskCategory]. *)
Theorem determineRiskCategory_thresholds (a : CreditAnalysis) (final : Z) :
  let this := set_alternativeCreditScore final a in
  let answer := snd (determineRiskCategory this) in
  (answer = low <-> (750 <= final)%Z) /\
  (answer = medium <-> (600 <= final <= 749)%Z) /\
  (answer = high <-> (final < 600)%Z) /\
  riskCategory (fst (determineRiskCategory this)) = Some answer.
Proof.
  cbv zeta. unfold determineRiskCategory.
  cbn [fst snd riskCategory set_riskCategory alternativeCreditScore
       set_alternativeCreditScore geb].
  destruct (Z.leb_spec 750 final) as [H750 | H750];
    [ | destruct (Z.leb_spec 600 final) as [H600 | H600] ];
    (repeat split; intros; try discriminate; try lia; try reflexivity).
Qed.

Lemma recommendation_low_score (a : CreditAnalysis) (final : Z) :
  (final < 600)%Z ->
  snd (generateLoanRecommendation (set_alternativeCreditScore final a)) =
  mkRecommendation false 0 0 24 6
    [ "Credit score too low for loan approval";
      "Consider building credit history" ].
Proof.
  intros Hlow. unfold generateLoanRecommendation. cbn [snd].
  cbn [alternativeCreditScore set_alternativeCreditScore].
  rewrite geb_some.
  destruct (Z.leb_spec 600 final); [lia | reflexivity].
Qed.

Lemma recommendation_terms (a : CreditAnalysis) (final : Z) :
  (600 <= final)%Z ->
  let r := snd (generateLoanRecommendation
                  (set_alternativeCreditScore final a)) in
  eligible r = true /\ terms_of r = spec_terms final.
Proof.
  intros Hok. unfold generateLoanRecommendation, spec_terms. cbn [snd].
  cbn [alternativeCreditScore set_alternativeCreditScore].
  rewrite !geb_some.
  destruct (Z.leb_spec 600 final); [ | lia].
  destruct (Z.leb_spec 750 final); destruct (Z.leb_spec 650 final);
    destruct (Z.ltb_spec final 650); destruct (Z.ltb_spec final 750);
    try lia;
    destruct (0 <? Z.of_nat (Datatypes.length (redFlags _)))%Z;
    destruct (is_medium _); split; reflexivity.
Qed.

(** C6. For every final score [generateLoanRecommendation] follows the
    decision table: below 600 not eligible, with the two conditions on the
    low score and on building credit history; from 600 up to 649 the block
    25000 / 15000 / 18 / 12; from 650 up to 749 the block
    50000 / 25000 / 15 / 18; from 750 on the block 100000 / 50000 / 12 / 24. *)
Theorem generateLoanRecommendation_table (a : CreditAnalysis) (final : Z) :
  let r := snd (generateLoanRecommendation
                  (set_alternativeCreditScore final a)) in
  ((final < 600)%Z ->
     eligible r = false /\
     conditions r = [ "Credit score too low for loan approval";
                      "Consider building credit history" ]) /\
  ((600 <= final < 650)%Z ->
     eligible r = true /\ terms_of r = block 25000 15000 18 12) /\
  ((650 <= final < 750)%Z ->
     eligible r = true /\ terms_of r = block 50000 25000 15 18) /\
  ((750 <= final)%Z ->
     eligible r = true /\ terms_of r = block 100000 50000 12 24).
Proof.
  cbv zeta. repeat split.
  - rewrite recommendation_low_score by assumption. reflexivity.
  - rewrite recommendation_low_score by assumption. reflexivity.
  - apply recommendation_terms. lia.
  - destruct (recommendation_terms a (final := final)) as [_ ->]; [lia | ].
    unfold spec_terms. destruct (Z.ltb_spec final 650); [reflexivity | lia].
  - apply recommendation_terms. lia.
  - destruct (recommendation_terms a (final := final)) as [_ ->]; [lia | ].
    unfold spec_terms. destruct (Z.ltb_spec final 650); [lia | ].
    destruct (Z.ltb_spec final 750); [reflexivity | lia].
  - apply recommendation_terms. lia.
  - destruct (recommendation_terms a (final := final)) as [_ ->]; [lia | ].
    unfold spec_terms. destruct (Z.ltb_spec final 650); [lia | ].
    destruct (Z.ltb_spec final 750); [lia | reflexivity].
Qed.

Lemma generateLoanRecommendation_table_witness :
  let r := snd (generateLoanRecommendation
                  (set_alternativeCreditScore 750 (newCreditAnalysis 1 0))) in
  eligible r = true /\ terms_of r = block 100000 50000 12 24.
Proof.
  apply (generateLoanRecommendation_table (newCreditAnalysis 1 0) 750). lia.
Defined.

Lemma recommendation_conditions (a : CreditAnalysis) (final : Z) :
  (600 <= final)%Z ->
  conditions (snd (generateLoanRecommendation
                     (set_alternativeCreditScore final a))) =
  ((if (0 <? Z.of_nat (List.length (redFlags a)))%Z
    then ["Additional verification required"] else [])
   ++ (if is_medium (riskCategory a)
       then ["Regular monitoring of repayment"] else []))%list.
Proof.
  intros Hok. unfold generateLoanRecommendation. cbn [snd].
  cbn [alternativeCreditScore set_alternativeCreditScore redFlags
       riskCategory].
  rewrite !geb_some.
  destruct (Z.leb_spec 600 final); [ | lia].
  destruct (750 <=? final)%Z; destruct (650 <=? final)%Z;
    destruct (0 <? Z.of_nat (Datatypes.length (redFlags a)))%Z;
    destruct (is_medium (riskCategory a)); reflexivity.
Qed.

Lemma has_flag (flags : list Flag) :
  flags <> [] -> (0 <? Z.of_nat (List.length flags))%Z = true.
Proof.
  destruct flags as [ | f rest]; [congruence | intros _].
  apply Z.ltb_lt. cbn [List.length]. lia.
Qed.

(** C7, as the code has it.  For every analysis whose final score is at
    least 600, [generateLoanRecommendation] appends the condition on
    additional verification whenever a red flag exists and the condition on
    regular monitoring whenever the risk tier is medium; for a score below
    600 the conditions are the two low-score conditions and nothing else. *)
Theorem conditions_appended_from_600 (a : CreditAnalysis) (final : Z) :
  let r := snd (generateLoanRecommendation
                  (set_alternativeCreditScore final a)) in
  ((600 <= final)%Z ->
     (redFlags a <> [] ->
        In "Additional verification required" (conditions r)) /\
     (riskCategory a = Some medium ->
        In "Regular monitoring of repayment" (conditions r))) /\
  ((final < 600)%Z ->
     conditions r = [ "Credit score too low for loan approval";
                      "Consider building credit history" ]).
Proof.
  cbv zeta. split.
  - intros Hok. rewrite recommendation_conditions by assumption. split.
    + intros Hflag. rewrite (has_flag Hflag). apply in_or_app. left.
      left. reflexivity.
    + intros ->. apply in_or_app. right. left. reflexivity.
  - intros Hlow. rewrite recommendation_low_score by assumption. reflexivity.
Qed.

Lemma conditions_appended_from_600_witness :
  let a := set_riskCategory medium
             (set_redFlags [volatileBalance] (newCreditAnalysis 1 0)) in
  let r := snd (generateLoanRecommendation
                  (set_alternativeCreditScore 700 a)) in
  In "Additional verification required" (conditions r) /\
  In "Regular monitoring of repayment" (conditions r).
Proof.
  cbv zeta.
  destruct (conditions_appended_from_600
              (set_riskCategory medium
                 (set_redFlags [volatileBalance] (newCreditAnalysis 1 0)))
              700) as [Hfrom _].
  destruct Hfrom as [Hflag Hmedium]; [lia | ].
  split; [apply Hflag; discriminate | apply Hmedium; reflexivity].
Defined.

(** C7 as stated fails below 600: with a final score of 500 and one red
    flag, the condition on additional verification is not appended. *)
Lemma no_verification_condition_below_600 :
  let a := set_alternativeCreditScore 500
             (set_riskCategory high
                (set_redFlags [volatileBalance] (newCreditAnalysis 1 0))) in
  redFlags a <> [] /\
  ~ In "Additional verification required"
      (conditions (snd (generateLoanRecommendation a))).
Proof.
  cbv zeta. split; [discriminate | ].
  cbn. intros [H | [H | []]]; discriminate H.
Qed.

(* ================================================================== *)
(** * Properties of the scoring service *)
(* ================================================================== *)


(** ** The analysers *)

Lemma sms_iteration_raises (h : Host) (u : Unreached) (sms : option SMS)
  (st : SmsLoop) :
  exists e, sms_iteration h u sms st = Throw e.
Proof.
  destruct sms as [[[text | ] d s] | ]; cbn; eauto.
Qed.

(** On a record that carries a message the error is the unbound helper. *)
Lemma sms_iteration_unbound (h : Host) (u : Unreached) (text : string)
  (d : option Z) (s : option string) (st : SmsLoop) :
  sms_iteration h u (Some (mkSMS (Some text) d s)) st =
  Throw (ReferenceError "extractMerchant").
Proof. reflexivity. Qed.

Lemma upi_iteration_raises (u : Unreached)
  (transaction : option UPITransaction) (st : UpiLoop) :
  exists e, upi_iteration u transaction st = Throw e.
Proof.
  destruct transaction as [entry | ]; cbn; eauto.
Qed.

Lemma upi_iteration_unbound (u : Unreached) (entry : UPITransaction)
  (st : UpiLoop) :
  upi_iteration u (Some entry) st =
  Throw (ReferenceError "categorizeMerchant").
Proof. reflexivity. Qed.

Lemma for_of_first_raises {A S} (body : A -> S -> result S) (x : A)
  (rest : list A) (s : S) (e : error) :
  body x s = Throw e -> for_of (x :: rest) body s = Throw e.
Proof. intros H. cbn [for_of]. rewrite H. reflexivity. Qed.

Lemma analyzeSMSTransactions_nonempty (h : Host) (u : Unreached)
  (sms : option SMS) (rest : list (option SMS)) :
  analyzeSMSTransactions h u (Items (sms :: rest)) = Ok getDefaultSMSAnalysis.
Proof.
  unfold analyzeSMSTransactions.
  match goal with
  | |- context [for_of _ _ ?st] =>
      destruct (sms_iteration_raises h u sms st) as [e He];
      rewrite (for_of_first_raises _ _ rest _ He)
  end.
  reflexivity.
Qed.

Lemma analyzeUPITransactions_nonempty (u : Unreached)
  (transaction : option UPITransaction)
  (rest : list (option UPITransaction)) :
  analyzeUPITransactions u (Items (transaction :: rest)) =
  Ok getDefaultUPIAnalysis.
Proof.
  unfold analyzeUPITransactions.
  match goal with
  | |- context [for_of _ _ ?st] =>
      destruct (upi_iteration_raises u transaction st) as [e He];
      rewrite (for_of_first_raises _ _ rest _ He)
  end.
  reflexivity.
Qed.

(** Whatever it is given, the SMS analyser returns its default summary. *)
Lemma analyzeSMSTransactions_default (h : Host) (u : Unreached)
  (smsData : payload (option SMS)) :
  analyzeSMSTransactions h u smsData = Ok getDefaultSMSAnalysis.
Proof.
  destruct smsData as [ | [ | sms rest] | ].
  - reflexivity.
  - reflexivity.
  - apply analyzeSMSTransactions_nonempty.
  - reflexivity.
Qed.

Lemma analyzeUPITransactions_default (u : Unreached)
  (upiData : payload (option UPITransaction)) :
  analyzeUPITransactions u upiData = Ok getDefaultUPIAnalysis.
Proof.
  destruct upiData as [ | [ | transaction rest] | ].
  - reflexivity.
  - reflexivity.
  - apply analyzeUPITransactions_nonempty.
  - reflexivity.
Qed.

(** The mobile analyser returns a summary on every input, and never counts
    a recharge: a list with a recharge in it runs into the unbound
    [calculateRechargeConsistency]. *)
Lemma analyzeMobileUsage_returns (mobileData : payload (option MobileItem)) :
  exists summary,
    analyzeMobileUsage mobileData = Ok summary /\
    rechargeFrequency summary = 0%Z.
Proof.
  destruct mobileData as [ | data | ].
  - eexists. split; reflexivity.
  - destruct data as [ | item rest].
    + eexists. split; reflexivity.
    + unfold analyzeMobileUsage.
      destruct (filter_recharges (item :: rest)) as [recharges | e].
      * cbn [bind].
        destruct (0 <? Z.of_nat (Datatypes.length recharges))%Z;
          eexists; split; reflexivity.
      * eexists. split; reflexivity.
  - eexists. split; reflexivity.
Qed.

(** C3. For every non-empty list of SMS records [analyzeSMSTransactions]
    returns the default summary it returns for the empty list
    (totalTransactions 0, balanceStability 30, regularityScore 30,
    merchantDiversity 20, no salary credits, no recurring payments), and for
    every non-empty list of UPI records [analyzeUPITransactions] returns its
    empty-list default: the first turn of the loop raises and the [catch]
    branch answers. *)
Theorem analysers_fall_back_to_defaults (h : Host) (u : Unreached)
  (sms : option SMS) (smsRest : list (option SMS))
  (transaction : option UPITransaction)
  (upiRest : list (option UPITransaction))
  (smsLoop : SmsLoop) (upiLoop : UpiLoop) :
  analyzeSMSTransactions h u (Items (sms :: smsRest))
    = analyzeSMSTransactions h u (Items []) /\
  analyzeSMSTransactions h u (Items []) =
    Ok (mkSMSAnalysis 0 0 0 0 30 30 20 [] []) /\
  analyzeUPITransactions u (Items (transaction :: upiRest))
    = analyzeUPITransactions u (Items []) /\
  analyzeUPITransactions u (Items []) = Ok getDefaultUPIAnalysis /\
  (exists e,
     for_of (sms :: smsRest) (sms_iteration h u) smsLoop = Throw e) /\
  (exists e,
     for_of (transaction :: upiRest) (upi_iteration u) upiLoop = Throw e).
Proof.
  repeat split.
  - rewrite analyzeSMSTransactions_nonempty. reflexivity.
  - rewrite analyzeUPITransactions_nonempty. reflexivity.
  - destruct (sms_iteration_raises h u sms smsLoop) as [e He].
    exists e. apply for_of_first_raises. exact He.
  - destruct (upi_iteration_raises u transaction upiLoop) as [e He].
    exists e. apply for_of_first_raises. exact He.
Qed.

(** ** The entry point *)

Lemma calculateScoreComponents_raises (smsAnalysis : SMSAnalysis)
  (upiAnalysis : UPIAnalysis) (mobileAnalysis : MobileAnalysis)
  (userData : UserData) :
  calculateScoreComponents smsAnalysis upiAnalysis mobileAnalysis userData =
  Throw (ReferenceError "calculateFinancialStabilityScore").
Proof. reflexivity. Qed.

(** Every call of the entry point ends in the error of its [catch] branch:
    the lookup fails, or the component scorer runs into the unbound
    [calculateFinancialStabilityScore]. *)
Lemma calculateAlternativeCreditScore_raises (h : Host) (u : Unreached)
  (userId : Z) (userData : UserData) :
  calculateAlternativeCreditScore h u userId userData =
  Throw (Error "Failed to calculate credit score").
Proof.
  unfold calculateAlternativeCreditScore, calculateAlternativeCreditScoreWith.
  destruct (findOne h userId) as [found | e]; [ | reflexivity].
  cbn [bind].
  rewrite analyzeSMSTransactions_default. cbn [bind].
  rewrite analyzeUPITransactions_default. cbn [bind].
  destruct (analyzeMobileUsage_returns (or_empty (mobileData userData)))
    as [summary [-> _]].
  reflexivity.
Qed.

(** ** The aggregator *)

Lemma truthy_some (x : option Q) :
  truthy x = true -> exists q, x = Some q /\ ~ q == 0.
Proof.
  destruct x as [q | ]; [ | discriminate].
  cbn. intros H. exists q. split; [reflexivity | ].
  intros Hq. apply Qeq_bool_iff in Hq. rewrite Hq in H. discriminate.
Qed.

Lemma accumulate_counted (acc : Q * Q) (c : Component) :
  counted c = true ->
  accumulate acc c = (fst acc + weighted c, snd acc + weightOf c).
Proof.
  unfold counted, accumulate, weighted, weightOf. intros H. rewrite H.
  apply andb_true_iff in H. destruct H as [Hs Hw].
  destruct (truthy_some _ Hs) as [s [-> _]].
  destruct (truthy_some _ Hw) as [w [-> _]].
  reflexivity.
Qed.

Lemma accumulate_skipped (acc : Q * Q) (c : Component) :
  counted c = false -> accumulate acc c = acc.
Proof.
  unfold counted, accumulate. intros ->. reflexivity.
Qed.

Lemma total_cons (f : Component -> Q) (c : Component)
  (cs : list Component) :
  total f (c :: cs) = f c + total f cs.
Proof. reflexivity. Qed.

(** The [forEach] adds up exactly the counted components. *)
Lemma fold_accumulate (cs : list Component) (acc : Q * Q) :
  same_sums (fold_left accumulate cs acc)
    (fst acc + total weighted (filter counted cs),
     snd acc + total weightOf (filter counted cs)).
Proof.
  revert acc. induction cs as [ | c rest IH]; intros acc.
  - unfold same_sums. cbn [fold_left filter total fold_right fst snd].
    split; ring.
  - cbn [fold_left filter]. destruct (counted c) eqn:Hc.
    + rewrite (accumulate_counted _ _ Hc).
      destruct (IH (fst acc + weighted c, snd acc + weightOf c)) as [H1 H2].
      split; [rewrite H1 | rewrite H2]; cbn [fst snd]; rewrite total_cons;
        ring.
    + rewrite (accumulate_skipped _ _ Hc). apply IH.
Qed.

Lemma Math_round_comp (x y : Q) : x == y -> Math_round x = Math_round y.
Proof.
  intros H. unfold Math_round. apply Qfloor_comp. rewrite H. reflexivity.
Qed.

Lemma Qeq_bool_comp (x y : Q) : x == y -> Qeq_bool x 0 = Qeq_bool y 0.
Proof.
  intros H. destruct (Qeq_bool y 0) eqn:Hy.
  - apply Qeq_bool_iff. apply Qeq_bool_iff in Hy. rewrite H. exact Hy.
  - destruct (Qeq_bool x 0) eqn:Hx; [ | reflexivity].
    apply Qeq_bool_iff in Hx. rewrite H in Hx.
    apply Qeq_bool_iff in Hx. congruence.
Qed.

(** What [calculateCreditScore] returns: the aggregate of the counted
    components. *)
Lemma calculateCreditScore_counted (this : CreditAnalysis) :
  snd (calculateCreditScore this) =
  aggregate (filter counted (component_entries (creditScoreComponents this))).
Proof.
  unfold calculateCreditScore, aggregate.
  set (cs := component_entries (creditScoreComponents this)).
  destruct (fold_accumulate cs (0, 0)) as [H1 H2].
  cbn [fst snd] in H1, H2.
  set (sums := fold_left accumulate cs (0, 0)) in *.
  assert (Hw : fst sums == total weighted (filter counted cs))
    by (rewrite H1; ring).
  assert (Ht : snd sums == total weightOf (filter counted cs))
    by (rewrite H2; ring).
  rewrite (Qeq_bool_comp Ht).
  destruct (Qeq_bool (total weightOf (filter counted cs)) 0);
    [reflexivity | ].
  cbn [snd]. apply Math_round_comp. rewrite Hw, Ht. ring.
Qed.

(** On the early return the stored score is left as it was; otherwise the
    returned score is stored. *)
Lemma calculateCreditScore_stores (this : CreditAnalysis) :
  alternativeCreditScore (fst (calculateCreditScore this)) =
    Some (snd (calculateCreditScore this))
  \/ fst (calculateCreditScore this) = this
     /\ snd (calculateCreditScore this) = 300%Z.
Proof.
  unfold calculateCreditScore.
  destruct (Qeq_bool _ 0); [right | left]; split; reflexivity.
Qed.

Lemma sums_bounded (cs : list Component) :
  (forall c, In c cs ->
     0 <= value (score c) <= 100 /\ 0 <= weightOf c) ->
  0 <= total weighted cs /\
  total weighted cs <= 100 * total weightOf cs /\
  0 <= total weightOf cs.
Proof.
  induction cs as [ | c rest IH]; intros Hall.
  - cbn. lra.
  - destruct IH as [H1 [H2 H3]].
    { intros c' Hin. apply Hall. right. exact Hin. }
    destruct (Hall c (or_introl eq_refl)) as [[Hs0 Hs1] Hw].
    rewrite !total_cons.
    change (weighted c) with (value (score c) * weightOf c).
    assert (Hp : 0 <= value (score c) * weightOf c)
      by (apply Qmult_le_0_compat; assumption).
    assert (Hq : 0 <= (100 - value (score c)) * weightOf c)
      by (apply Qmult_le_0_compat; [lra | assumption]).
    repeat split; lra.
Qed.

Lemma Math_round_between (x : Q) (lo hi : Z) :
  inject_Z lo <= x -> x <= inject_Z hi ->
  (lo <= Math_round x <= hi)%Z.
Proof.
  intros Hlo Hhi. unfold Math_round. split.
  - rewrite <- (Qfloor_Z lo). apply Qfloor_resp_le. lra.
  - assert (H := Qfloor_le (x + (1 # 2))).
    assert (Hlt : inject_Z (Qfloor (x + (1 # 2))) < inject_Z (hi + 1)).
    { rewrite inject_Z_plus. change (inject_Z 1) with 1. lra. }
    rewrite <- Zlt_Qlt in Hlt. lia.
Qed.

(** With scores in [0, 100] and weights that are not negative, the
    aggregate stays on the scale, so that clamping changes nothing. *)
Lemma aggregate_on_scale (cs : list Component) :
  (forall c, In c cs ->
     0 <= value (score c) <= 100 /\ 0 <= weightOf c) ->
  (300 <= aggregate cs <= 900)%Z.
Proof.
  intros Hall. destruct (sums_bounded cs Hall) as [H1 [H2 H3]].
  unfold aggregate.
  destruct (Qeq_bool (total weightOf cs) 0) eqn:Hzero; [lia | ].
  assert (Hpos : 0 < total weightOf cs).
  { apply Qle_lteq in H3. destruct H3 as [H3 | H3]; [exact H3 | ].
    symmetry in H3. apply Qeq_bool_iff in H3. congruence. }
  assert (Hn0 : 0 <= total weighted cs / total weightOf cs).
  { apply Qle_shift_div_l; [exact Hpos | lra]. }
  assert (Hn1 : total weighted cs / total weightOf cs <= 100).
  { apply Qle_shift_div_r; [exact Hpos | lra]. }
  apply Math_round_between.
  - change (inject_Z 300) with 300. lra.
  - change (inject_Z 900) with 900. lra.
Qed.







(** ** The empty request *)

Lemma aggregate_between (cs : list Component) (lo hi : Z) (nlo nhi : Q) :
  0 < total weightOf cs ->
  nlo * total weightOf cs <= total weighted cs ->
  total weighted cs <= nhi * total weightOf cs ->
  inject_Z lo <= 300 + 6 * nlo ->
  300 + 6 * nhi <= inject_Z hi ->
  (lo <= aggregate cs <= hi)%Z.
Proof.
  intros Hpos Hlo Hhi Hzlo Hzhi. unfold aggregate.
  destruct (Qeq_bool (total weightOf cs) 0) eqn:Hzero.
  - apply Qeq_bool_iff in Hzero. lra.
  - assert (Hn0 : nlo <= total weighted cs / total weightOf cs)
      by (apply Qle_shift_div_l; assumption).
    assert (Hn1 : total weighted cs / total weightOf cs <= nhi)
      by (apply Qle_shift_div_r; assumption).
    apply Math_round_between; lra.
Qed.

Lemma default_components (stability social : Q) :
  calculateScoreComponentsWith (fun _ _ => Ok stability)
    (fun _ _ => Ok social) getDefaultSMSAnalysis getDefaultUPIAnalysis
    getDefaultMobileAnalysis emptyInput =
  Ok (withFixedWeights 30 30 20 stability social).
Proof. reflexivity. Qed.

Lemma counted_entry (s w : Q) (f : list string) :
  counted (mkComponent (Some s) (Some w) f) =
  negb (Qeq_bool s 0) && negb (Qeq_bool w 0).
Proof. reflexivity. Qed.

Lemma default_score_range (a : CreditAnalysis) (stability social : Q) :
  0 <= stability <= 100 -> 0 <= social <= 100 ->
  (405 <= snd (calculateCreditScore
                 (set_creditScoreComponents
                    (withFixedWeights 30 30 20 stability social) a))
       <= 615)%Z.
Proof.
  intros Hst Hso. rewrite calculateCreditScore_counted.
  cbn [creditScoreComponents set_creditScoreComponents].
  unfold component_entries, withFixedWeights.
  cbn [transactionBehavior paymentRegularity_component digitalEngagement
       financialStability socialSignals filter].
  rewrite !counted_entry.
  change (Qeq_bool 30 0) with false. change (Qeq_bool 20 0) with false.
  change (Qeq_bool 0.25 0) with false. change (Qeq_bool 0.20 0) with false.
  change (Qeq_bool 0.10 0) with false. cbn [negb andb].
  rewrite !andb_true_r.
  destruct (Qeq_bool stability 0) eqn:Est;
    destruct (Qeq_bool social 0) eqn:Eso; cbn [negb];
    try (apply Qeq_bool_iff in Est); try (apply Qeq_bool_iff in Eso);
    apply (@aggregate_between _ 405 615 17.5 52.5);
    rewrite ?total_cons; unfold weighted, weightOf;
    cbn [total fold_right value score weight];
    change (inject_Z 405) with 405; change (inject_Z 615) with 615;
    lra.
Qed.

(** C2, as the code has it.  On the empty request the three analysers
    return their default summaries; the component scores derived from them
    are 30 (transaction behaviour), 30 (payment regularity) and 20 (digital
    engagement); with these and any financial-stability and social-signals
    scores in [0, 100] the final score lies between 405 and 615, never at
    300; and whenever it is below 600 the risk tier is [high] and the
    recommendation is not eligible. *)
Theorem empty_input_scores_above_minimum (h : Host) (u : Unreached)
  (a : CreditAnalysis) (stability social : Q) :
  0 <= stability <= 100 -> 0 <= social <= 100 ->
  analyzeSMSTransactions h u (or_empty (smsData emptyInput))
    = Ok getDefaultSMSAnalysis /\
  analyzeUPITransactions u (or_empty (upiData emptyInput))
    = Ok getDefaultUPIAnalysis /\
  analyzeMobileUsage (or_empty (mobileData emptyInput))
    = Ok getDefaultMobileAnalysis /\
  exists components,
    calculateScoreComponentsWith (fun _ _ => Ok stability)
      (fun _ _ => Ok social) getDefaultSMSAnalysis getDefaultUPIAnalysis
      getDefaultMobileAnalysis emptyInput = Ok components /\
    score (transactionBehavior components) = Some 30 /\
    score (paymentRegularity_component components) = Some 30 /\
    score (digitalEngagement components) = Some 20 /\
    let scored :=
      calculateCreditScore (set_creditScoreComponents components a) in
    let classified := determineRiskCategory (fst scored) in
    (405 <= snd scored <= 615)%Z /\
    snd scored <> 300%Z /\
    ((snd scored < 600)%Z ->
       snd classified = high /\
       eligible (snd (generateLoanRecommendation (fst classified))) = false).
Proof.
  intros Hst Hso. repeat split.
  exists (withFixedWeights 30 30 20 stability social).
  split; [apply default_components | ].
  repeat split.
  - apply default_score_range; assumption.
  - apply default_score_range; assumption.
  - pose proof (default_score_range a Hst Hso). lia.
  - destruct (calculateCreditScore_stores
                (set_creditScoreComponents
                   (withFixedWeights 30 30 20 stability social) a))
      as [Hstored | [_ Hmin]].
    + unfold determineRiskCategory. rewrite Hstored. cbn [snd geb].
      destruct (Z.leb_spec 750 (snd (calculateCreditScore
        (set_creditScoreComponents
           (withFixedWeights 30 30 20 stability social) a)))); [lia | ].
      destruct (Z.leb_spec 600 (snd (calculateCreditScore
        (set_creditScoreComponents
           (withFixedWeights 30 30 20 stability social) a)))); [lia | ].
      reflexivity.
    + pose proof (default_score_range a Hst Hso). lia.
  - destruct (calculateCreditScore_stores
                (set_creditScoreComponents
                   (withFixedWeights 30 30 20 stability social) a))
      as [Hstored | [_ Hmin]].
    + unfold generateLoanRecommendation, determineRiskCategory.
      cbn [fst snd alternativeCreditScore set_riskCategory].
      rewrite Hstored. cbn [geb].
      destruct (Z.leb_spec 600 (snd (calculateCreditScore
        (set_creditScoreComponents
           (withFixedWeights 30 30 20 stability social) a)))); [lia | ].
      reflexivity.
    + pose proof (default_score_range a Hst Hso). lia.
Qed.

Lemma empty_input_scores_above_minimum_witness :
  exists components,
    calculateScoreComponentsWith (fun _ _ => Ok 50) (fun _ _ => Ok 50)
      getDefaultSMSAnalysis getDefaultUPIAnalysis getDefaultMobileAnalysis
      emptyInput = Ok components /\
    (405 <= snd (calculateCreditScore (documentOf components)) <= 615)%Z.
Proof.
  destruct (@empty_input_scores_above_minimum freshHost idle
              (newCreditAnalysis 1 0) 50 50)
    as [_ [_ [_ [components [Hc [_ [_ [_ [Hrange _]]]]]]]]];
    try (split; discriminate).
  exists components. split; [exact Hc | exact Hrange].
Defined.

(** C2 as stated fails: on the empty request the engine returns no result
    at all, so none with a final score of 300. *)
Lemma empty_input_yields_no_result :
  ~ exists analysis,
      calculateAlternativeCreditScore freshHost idle 1 emptyInput
        = Ok analysis /\
      alternativeCreditScore analysis = Some 300%Z /\
      riskCategory analysis = Some high /\
      option_map eligible (loanRecommendation analysis) = Some false.
Proof.
  intros [analysis [Hcall _]].
  rewrite calculateAlternativeCreditScore_raises in Hcall. discriminate.
Qed.

(** ** Graceful degradation *)





(** ** Confidence and the number of SMS records *)

(** C9 on the code: whatever the number of SMS records, the SMS analyser
    answers with its default summary, whose transaction count is 0; the
    confidence computed for 60 records is the confidence computed for 40,
    and the entry point raises for both requests. *)
Theorem confidence_blind_to_sms_count (h : Host) (u : Unreached)
  (records40 records60 : list (option SMS))
  (upiAnalysis : UPIAnalysis) (mobileAnalysis : MobileAnalysis)
  (userId : Z) (rest : UserData) :
  List.length records40 = 40%nat ->
  List.length records60 = 60%nat ->
  exists summary40 summary60,
    analyzeSMSTransactions h u (Items records40) = Ok summary40 /\
    analyzeSMSTransactions h u (Items records60) = Ok summary60 /\
    totalTransactions summary40 = 0%Z /\
    totalTransactions summary60 = 0%Z /\
    calculateConfidenceLevel summary60 upiAnalysis mobileAnalysis
      = calculateConfidenceLevel summary40 upiAnalysis mobileAnalysis /\
    calculateAlternativeCreditScore h u userId
      (mkUserData (Items records40) (upiData rest) (mobileData rest)
         (monthlyIncome rest) (occupation rest))
      = Throw (Error "Failed to calculate credit score") /\
    calculateAlternativeCreditScore h u userId
      (mkUserData (Items records60) (upiData rest) (mobileData rest)
         (monthlyIncome rest) (occupation rest))
      = Throw (Error "Failed to calculate credit score").
Proof.
  intros _ _. exists getDefaultSMSAnalysis, getDefaultSMSAnalysis.
  repeat split;
    solve [ apply analyzeSMSTransactions_default
          | apply calculateAlternativeCreditScore_raises ].
Qed.

Lemma confidence_blind_to_sms_count_witness :
  exists summary40 summary60,
    analyzeSMSTransactions freshHost idle (smsData (requestWithSms 40))
      = Ok summary40 /\
    analyzeSMSTransactions freshHost idle (smsData (requestWithSms 60))
      = Ok summary60 /\
    calculateConfidenceLevel summary60 getDefaultUPIAnalysis
        getDefaultMobileAnalysis
      = calculateConfidenceLevel summary40 getDefaultUPIAnalysis
          getDefaultMobileAnalysis.
Proof.
  destruct (@confidence_blind_to_sms_count freshHost idle
              (repeat (Some creditSms) 40) (repeat (Some creditSms) 60)
              getDefaultUPIAnalysis getDefaultMobileAnalysis 1
              (requestWithSms 0) eq_refl eq_refl)
    as [s40 [s60 [H40 [H60 [_ [_ [Hsame _]]]]]]].
  exists s40, s60. split; [exact H40 | split; [exact H60 | exact Hsame]].
Defined.

(* ================================================================== *)
(** * Properties of calculateBalanceStability *)
(* ================================================================== *)

Module BalanceStabilityFacts.

Import Reals Lra BalanceStability.
Local Open Scope R_scope.

Lemma few_readings (balances : list R) :
  (List.length balances < 2)%nat ->
  calculateBalanceStability balances = Finite 50.
Proof.
  intros Hfew. unfold calculateBalanceStability.
  destruct (Nat.ltb_spec (List.length balances) 2); [reflexivity | lia].
Qed.

Lemma squares_nonneg (mean : R) (balances : list R) (start : R) :
  0 <= start ->
  0 <= fold_left (fun sum balance => sum + (balance - mean) ^ 2)
         balances start.
Proof.
  revert start. induction balances as [ | b rest IH]; intros start Hstart.
  - exact Hstart.
  - cbn [fold_left]. apply IH.
    assert (H := pow2_ge_0 (b - mean)). lra.
Qed.

Lemma variance_nonneg (balances : list R) :
  (2 <= List.length balances)%nat -> 0 <= variance_of balances.
Proof.
  intros Hlen. unfold variance_of.
  apply Rmult_le_pos.
  - apply squares_nonneg. lra.
  - left. apply Rinv_0_lt_compat. apply lt_0_INR. lia.
Qed.

Lemma clamp_formula (c : R) :
  0 <= c -> Rmax 0 (Rmin 100 (100 - c * 100)) = 100 * (1 - Rmin 1 c).
Proof.
  intros Hc. unfold Rmax, Rmin.
  destruct (Rle_dec 100 (100 - c * 100)); destruct (Rle_dec 1 c);
    match goal with
    | |- context [Rle_dec 0 ?x] => destruct (Rle_dec 0 x)
    end; lra.
Qed.

(** With at least two readings of positive mean the code computes the
    specification's formula, and the result lies in [0, 100]. *)
Lemma positive_mean (balances : list R) :
  (2 <= List.length balances)%nat ->
  0 < mean_of balances ->
  calculateBalanceStability balances
    = Finite (spec_balanceStability balances) /\
  in_range (calculateBalanceStability balances).
Proof.
  intros Hlen Hmean.
  assert (Hc : 0 <= sqrt (variance_of balances) / mean_of balances).
  { apply Rmult_le_pos; [apply sqrt_pos | ].
    left. apply Rinv_0_lt_compat. exact Hmean. }
  assert (Heq : calculateBalanceStability balances
                = Finite (spec_balanceStability balances)).
  { unfold calculateBalanceStability, spec_balanceStability.
    destruct (Nat.ltb_spec (List.length balances) 2); [lia | ].
    unfold divide.
    destruct (Req_dec_T (mean_of balances) 0) as [Hzero | _]; [lra | ].
    cbn [times minus_from Math_min Math_max].
    rewrite clamp_formula by exact Hc. reflexivity. }
  split; [exact Heq | ].
  rewrite Heq. unfold spec_balanceStability.
  destruct (Nat.ltb_spec (List.length balances) 2); [lia | ].
  cbn [in_range]. unfold Rmin.
  destruct (Rle_dec 1 (sqrt (variance_of balances) / mean_of balances));
    lra.
Qed.

Lemma zero_readings_mean : mean_of [0; 0] = 0.
Proof. unfold mean_of. cbn [fold_left List.length INR]. lra. Qed.

Lemma zero_readings_variance : variance_of [0; 0] = 0.
Proof.
  unfold variance_of. rewrite zero_readings_mean.
  cbn [fold_left List.length INR]. lra.
Qed.

(** C10 on the code: two readings of a zero balance have mean 0 and
    variance 0, the coefficient of variation is 0 / 0, and
    [calculateBalanceStability] returns NaN, which is no number of
    [0, 100] and not the value of the specification's formula. *)
Theorem zero_balances_give_NaN :
  calculateBalanceStability [0; 0] = NaN /\
  ~ in_range (calculateBalanceStability [0; 0]).
Proof.
  assert (H : calculateBalanceStability [0; 0] = NaN).
  { unfold calculateBalanceStability. cbn [List.length Nat.ltb Nat.leb].
    rewrite zero_readings_mean, zero_readings_variance, sqrt_0.
    unfold divide.
    destruct (Req_dec_T 0 0) as [_ | Hne]; [ | contradiction Hne; reflexivity].
    reflexivity. }
  split; [exact H | ]. rewrite H. cbn [in_range]. tauto.
Qed.

End BalanceStabilityFacts.

(* ================================================================== *)
(** * Further properties of the CreditAnalysis methods *)
(* ================================================================== *)

(** Every recommendation stays inside the bounds the schema declares:
    the recommended amount never exceeds the maximum, the rate lies
    between 12 and 24, the tenure between 6 and 24 months, a loan is
    eligible exactly when its maximum amount is positive, and at most two
    conditions are attached. *)
Theorem recommendation_within_schema (this : CreditAnalysis) :
  let r := snd (generateLoanRecommendation this) in
  (0 <= recommendedAmount r <= maxLoanAmount r)%Z /\
  12 <= suggestedInterestRate r <= 24 /\
  (6 <= maxTenure r <= 24)%Z /\
  eligible r = (0 <? maxLoanAmount r)%Z /\
  (List.length (conditions r) <= 2)%nat /\
  loanRecommendation (fst (generateLoanRecommendation this)) = Some r.
Proof.
  cbv zeta. unfold generateLoanRecommendation. cbn [fst snd].
  destruct (geb (alternativeCreditScore this) 600);
    [ destruct (geb (alternativeCreditScore this) 750);
      [ | destruct (geb (alternativeCreditScore this) 650) ] | ];
    destruct (0 <? Z.of_nat (Datatypes.length (redFlags this)))%Z;
    destruct (is_medium (riskCategory this));
    cbn; repeat split; try lia; try discriminate.
Qed.

Lemma recommendation_fields (a : CreditAnalysis) (final : Z) :
  let r := snd (generateLoanRecommendation
                  (set_alternativeCreditScore final a)) in
  (eligible r, terms_of r) =
  if (final <? 600)%Z then (false, block 0 0 24 6)
  else (true, spec_terms final).
Proof.
  cbv zeta. destruct (Z.ltb_spec final 600) as [Hlow | Hok].
  - rewrite recommendation_low_score by assumption. reflexivity.
  - pose proof (recommendation_terms a Hok) as H. cbv zeta in H.
    destruct H as [He Ht]. rewrite He, Ht. reflexivity.
Qed.

(** A higher final score never gives worse terms: the maximum and the
    recommended amount and the tenure do not shrink, the interest rate does
    not grow, and eligibility is kept. *)
Theorem recommendation_monotone (a b : CreditAnalysis) (lower higher : Z) :
  (lower <= higher)%Z ->
  let r1 := snd (generateLoanRecommendation
                   (set_alternativeCreditScore lower a)) in
  let r2 := snd (generateLoanRecommendation
                   (set_alternativeCreditScore higher b)) in
  (maxLoanAmount r1 <= maxLoanAmount r2)%Z /\
  (recommendedAmount r1 <= recommendedAmount r2)%Z /\
  suggestedInterestRate r2 <= suggestedInterestRate r1 /\
  (maxTenure r1 <= maxTenure r2)%Z /\
  (eligible r1 = true -> eligible r2 = true).
Proof.
  intros Hle. cbv zeta.
  pose proof (recommendation_fields a lower) as H1.
  pose proof (recommendation_fields b higher) as H2.
  cbv zeta in H1, H2.
  destruct (snd (generateLoanRecommendation
                   (set_alternativeCreditScore lower a)))
    as [e1 m1 r1 i1 t1 c1].
  destruct (snd (generateLoanRecommendation
                   (set_alternativeCreditScore higher b)))
    as [e2 m2 r2 i2 t2 c2].
  unfold terms_of, block, spec_terms in H1, H2.
  cbn [eligible maxLoanAmount recommendedAmount suggestedInterestRate
       maxTenure] in *.
  destruct (Z.ltb_spec lower 600); destruct (Z.ltb_spec higher 600);
    destruct (Z.ltb_spec lower 650); destruct (Z.ltb_spec higher 650);
    destruct (Z.ltb_spec lower 750); destruct (Z.ltb_spec higher 750);
    try lia;
    inversion H1; inversion H2; subst;
    repeat split; try lia; try discriminate; try reflexivity;
    intros; try reflexivity; try discriminate.
Qed.

Lemma recommendation_monotone_witness :
  (maxLoanAmount (snd (generateLoanRecommendation
      (set_alternativeCreditScore 620 (newCreditAnalysis 1 0))))
   <= maxLoanAmount (snd (generateLoanRecommendation
      (set_alternativeCreditScore 760 (newCreditAnalysis 2 0)))))%Z.
Proof.
  apply (@recommendation_monotone (newCreditAnalysis 1 0)
           (newCreditAnalysis 2 0) 620 760).
  lia.
Defined.

(** Classifier and recommendation agree when run one after the other, as
    the entry point runs them: whatever the document holds (also no score
    at all), the loan is eligible exactly when the tier is not [high], the
    monitoring condition is attached exactly for the tier [medium], and the
    verification condition exactly when the tier is not [high] and the
    document carries a red flag. *)
Theorem recommendation_follows_tier (this : CreditAnalysis) :
  let classified := determineRiskCategory this in
  let tier := snd classified in
  let r := snd (generateLoanRecommendation (fst classified)) in
  (eligible r = false <-> tier = high) /\
  (In "Regular monitoring of repayment" (conditions r) <-> tier = medium) /\
  (In "Additional verification required" (conditions r)
     <-> tier <> high /\ redFlags this <> []).
Proof.
  cbv zeta. unfold determineRiskCategory, generateLoanRecommendation.
  cbn [fst snd alternativeCreditScore riskCategory redFlags
       set_riskCategory].
  destruct (alternativeCreditScore this) as [final | ]; cbn [geb].
  - destruct (Z.leb_spec 750 final); destruct (Z.leb_spec 650 final);
      destruct (Z.leb_spec 600 final); try lia;
      destruct (redFlags this) as [ | f rest]; cbn;
      repeat split; intros; try discriminate; try congruence;
      try tauto;
      repeat match goal with
             | H : _ \/ _ |- _ => destruct H
             | H : _ /\ _ |- _ => destruct H
             | H : False |- _ => destruct H
             | H : _ = _ |- _ => discriminate H
             end;
      try congruence; try tauto; auto.
  - destruct (redFlags this) as [ | f rest]; cbn;
      repeat split; intros; try discriminate; try congruence;
      repeat match goal with
             | H : _ \/ _ |- _ => destruct H
             | H : _ /\ _ |- _ => destruct H
             | H : False |- _ => destruct H
             | H : _ = _ |- _ => discriminate H
             end;
      try congruence; try tauto.
Qed.

(** ** Further properties of the aggregator *)

(** Whatever the weights are, as long as none is negative, counted scores
    in [0, 100] give a final score on the scale from 300 to 900. *)
Theorem calculateCreditScore_on_scale (this : CreditAnalysis) :
  (forall c, In c (component_entries (creditScoreComponents this)) ->
             counted c = true ->
             0 <= value (score c) <= 100 /\ 0 <= weightOf c) ->
  (300 <= snd (calculateCreditScore this) <= 900)%Z.
Proof.
  intros Hall. rewrite calculateCreditScore_counted.
  apply aggregate_on_scale. intros c Hin.
  apply filter_In in Hin. destruct Hin as [Hin Hc].
  apply Hall; assumption.
Qed.

Lemma calculateCreditScore_on_scale_witness :
  (300 <= snd (calculateCreditScore
                 (documentOf (withFixedWeights 0 55 100 12 70))) <= 900)%Z.
Proof.
  apply calculateCreditScore_on_scale.
  intros c Hin _. cbn in Hin.
  destruct Hin as [<- | [<- | [<- | [<- | [<- | []]]]]];
    unfold weightOf; cbn [value score weight]; repeat split; discriminate.
Defined.








(** When no component is counted the method returns 300 but assigns
    nothing: the document keeps the score it had, and the classifier that
    runs next still answers for that old score. *)
Theorem uncounted_components_keep_old_score (this : CreditAnalysis) :
  (forall c, In c (component_entries (creditScoreComponents this)) ->
             counted c = false) ->
  snd (calculateCreditScore this) = 300%Z /\
  fst (calculateCreditScore this) = this /\
  snd (determineRiskCategory (fst (calculateCreditScore this)))
    = snd (determineRiskCategory this).
Proof.
  intros Hnone.
  assert (Hempty :
    filter counted (component_entries (creditScoreComponents this)) = []).
  { induction (component_entries (creditScoreComponents this))
      as [ | c rest IH]; [reflexivity | ].
    cbn [filter]. rewrite (Hnone c (or_introl eq_refl)).
    apply IH. intros c' Hin. apply Hnone. right. exact Hin. }
  destruct (fold_accumulate
              (component_entries (creditScoreComponents this)) (0, 0))
    as [_ Ht].
  rewrite Hempty in Ht. cbn [fst snd total fold_right] in Ht.
  assert (Hz : Qeq_bool
            (snd (fold_left accumulate
                    (component_entries (creditScoreComponents this))
                    (0, 0))) 0 = true).
  { apply Qeq_bool_iff. rewrite Ht. ring. }
  unfold calculateCreditScore. rewrite Hz. cbn [fst snd].
  repeat split.
Qed.

Lemma uncounted_components_keep_old_score_witness :
  snd (calculateCreditScore staleDocument) = 300%Z /\
  snd (determineRiskCategory (fst (calculateCreditScore staleDocument)))
    = low.
Proof.
  destruct (uncounted_components_keep_old_score staleDocument)
    as [Hreturn [_ Htier]].
  - intros c Hin. cbn in Hin.
    destruct Hin as [<- | [<- | [<- | [<- | [<- | []]]]]]; reflexivity.
  - split; [exact Hreturn | rewrite Htier; reflexivity].
Defined.

(* ================================================================== *)
(** * Further properties of the scoring service *)
(* ================================================================== *)

Lemma Qltb_lt (x y : Q) : Qltb x y = true <-> x < y.
Proof.
  unfold Qltb. rewrite negb_true_iff. split.
  - intros H. apply Qnot_le_lt. intros Hle.
    apply Qle_bool_iff in Hle. congruence.
  - intros H. destruct (Qle_bool y x) eqn:E; [ | reflexivity].
    apply Qle_bool_iff in E. lra.
Qed.

Lemma filter_recharges_without (data : list (option MobileItem)) :
  withoutRecharge data = true -> filter_recharges data = Ok [].
Proof.
  induction data as [ | [entry | ] rest IH]; cbn; intros H.
  - reflexivity.
  - apply andb_true_iff in H. destruct H as [Hentry Hrest].
    rewrite (IH Hrest). cbn. apply negb_true_iff in Hentry.
    rewrite Hentry. reflexivity.
  - discriminate.
Qed.

Lemma filter_recharges_with (data : list (option MobileItem)) :
  withoutRecharge data = false ->
  (exists e, filter_recharges data = Throw e) \/
  (exists entry kept, filter_recharges data = Ok (entry :: kept)).
Proof.
  induction data as [ | [entry | ] rest IH]; cbn; intros H.
  - discriminate.
  - destruct (String.eqb (item_type entry) "recharge") eqn:Htype.
    + destruct (filter_recharges rest) as [kept | e]; cbn.
      * right. exists entry, kept. reflexivity.
      * left. exists e. reflexivity.
    + cbn in H. destruct (IH H) as [[e He] | [x [kept Hk]]].
      * left. exists e. rewrite He. reflexivity.
      * right. exists x, kept. rewrite Hk. reflexivity.
  - left. eexists. reflexivity.
Qed.

Lemma analyzeMobileUsage_cases (mobileData : payload (option MobileItem)) :
  analyzeMobileUsage mobileData =
  Ok match mobileData with
     | Items data =>
         if nonEmpty data && withoutRecharge data
         then initialMobileAnalysis else getDefaultMobileAnalysis
     | _ => getDefaultMobileAnalysis
     end.
Proof.
  destruct mobileData as [ | data | ]; try reflexivity.
  destruct data as [ | item rest]; [reflexivity | ].
  cbn [nonEmpty andb]. unfold analyzeMobileUsage.
  destruct (withoutRecharge (item :: rest)) eqn:Hw.
  - rewrite (filter_recharges_without _ Hw). reflexivity.
  - destruct (filter_recharges_with _ Hw) as [[e He] | [x [kept Hk]]].
    + rewrite He. reflexivity.
    + rewrite Hk. reflexivity.
Qed.

(** The mobile analyser has two answers only.  A non-empty list without a
    [null] entry and without a recharge gives the summary the function
    starts from (consistency 0, usage [medium]); everything else, a list
    with a recharge in it included, gives the default summary.  No answer
    ever reports a recharge. *)
Theorem analyzeMobileUsage_outcomes (mobileData : payload (option MobileItem)) :
  analyzeMobileUsage mobileData =
  Ok match mobileData with
     | Items data =>
         if nonEmpty data && withoutRecharge data
         then initialMobileAnalysis else getDefaultMobileAnalysis
     | _ => getDefaultMobileAnalysis
     end.
Proof. exact (analyzeMobileUsage_cases mobileData). Qed.

(** Whatever the request carries, the summaries the three analysers return
    raise no red flag and no positive indicator, and the confidence
    computed from them is the base confidence 0.3. *)
Theorem shipped_signals_are_silent (h : Host) (u : Unreached)
  (userData : UserData) :
  exists smsAnalysis upiAnalysis mobileAnalysis,
    analyzeSMSTransactions h u (or_empty (smsData userData))
      = Ok smsAnalysis /\
    analyzeUPITransactions u (or_empty (upiData userData))
      = Ok upiAnalysis /\
    analyzeMobileUsage (or_empty (mobileData userData))
      = Ok mobileAnalysis /\
    identifyRedFlags smsAnalysis upiAnalysis mobileAnalysis = [] /\
    identifyPositiveIndicators smsAnalysis upiAnalysis mobileAnalysis = [] /\
    calculateConfidenceLevel smsAnalysis upiAnalysis mobileAnalysis = 0.3.
Proof.
  destruct (analyzeMobileUsage_returns (or_empty (mobileData userData)))
    as [mobileAnalysis [Hm Hfreq]].
  exists getDefaultSMSAnalysis, getDefaultUPIAnalysis, mobileAnalysis.
  split; [apply analyzeSMSTransactions_default | ].
  split; [apply analyzeUPITransactions_default | ].
  split; [exact Hm | ].
  split; [reflexivity | ]. split; [reflexivity | ].
  unfold calculateConfidenceLevel. rewrite Hfreq. reflexivity.
Qed.

(** The signals look at the SMS and the UPI summary only, attach at most
    two entries each, give every red flag a negative and every positive
    indicator a positive impact, and never report low digital usage and
    high digital engagement for the same UPI summary. *)
Theorem signals_are_consistent (smsAnalysis : SMSAnalysis)
  (upiAnalysis : UPIAnalysis) (mobileAnalysis other : MobileAnalysis) :
  let flags := identifyRedFlags smsAnalysis upiAnalysis mobileAnalysis in
  let indicators :=
    identifyPositiveIndicators smsAnalysis upiAnalysis mobileAnalysis in
  flags = identifyRedFlags smsAnalysis upiAnalysis other /\
  indicators = identifyPositiveIndicators smsAnalysis upiAnalysis other /\
  (List.length flags <= 2)%nat /\
  (List.length indicators <= 2)%nat /\
  (forall f, In f flags -> (flag_impact f < 0)%Z) /\
  (forall f, In f indicators -> (0 < flag_impact f)%Z) /\
  ~ ((exists f, In f flags /\ flag_type f = "low_digital_usage") /\
     (exists g, In g indicators /\ flag_type g = "high_digital_engagement")).
Proof.
  cbv zeta. unfold identifyRedFlags, identifyPositiveIndicators.
  destruct (Qltb (balanceStability smsAnalysis) 30);
    destruct (Qltb (digitalFootprintScore upiAnalysis) 20) eqn:Hlow;
    destruct (Qltb 70 (digitalFootprintScore upiAnalysis)) eqn:Hhigh;
    destruct (0 <? Z.of_nat (Datatypes.length (salaryCredits smsAnalysis)))%Z;
    cbn [app List.length];
    (split; [reflexivity | ]); (split; [reflexivity | ]);
    (split; [lia | ]); (split; [lia | ]);
    (split; [ intros f Hin; cbn in Hin;
              repeat (destruct Hin as [<- | Hin]; [cbn; lia | ]);
              destruct Hin | ]);
    (split; [ intros f Hin; cbn in Hin;
              repeat (destruct Hin as [<- | Hin]; [cbn; lia | ]);
              destruct Hin | ]);
    try (apply Qltb_lt in Hlow; apply Qltb_lt in Hhigh; lra);
    intros [[f [Hf Htype]] [g [Hg Hgtype]]]; cbn in Hf, Hg;
    repeat (destruct Hf as [<- | Hf]; [cbn in Htype; try discriminate | ]);
    try destruct Hf;
    repeat (destruct Hg as [<- | Hg]; [cbn in Hgtype; try discriminate | ]);
    try destruct Hg.
Qed.

(* ================================================================== *)
(** * Further properties of the two dispersion scores *)
(* ================================================================== *)

Module DispersionFacts.

Import Reals Lra BalanceStability RegularityScore.
Local Open Scope R_scope.

Lemma sum_from (xs : list R) (start : R) :
  fold_left (fun a b => a + b) xs start
  = start + fold_left (fun a b => a + b) xs 0.
Proof.
  revert start. induction xs as [ | x rest IH]; intros start.
  - cbn. lra.
  - cbn [fold_left]. rewrite (IH (start + x)), (IH (0 + x)). lra.
Qed.

Lemma sum_constant (b : R) (xs : list R) :
  Forall (fun x => x = b) xs ->
  fold_left (fun a x => a + x) xs 0 = INR (List.length xs) * b.
Proof.
  induction 1 as [ | x rest Hx _ IH].
  - cbn. lra.
  - cbn [fold_left]. rewrite sum_from, IH. subst x.
    change (List.length (b :: rest)) with (S (List.length rest)).
    rewrite S_INR. lra.
Qed.

Lemma squares_constant (b : R) (xs : list R) (start : R) :
  Forall (fun x => x = b) xs ->
  fold_left (fun sum x => sum + (x - b) ^ 2) xs start = start.
Proof.
  intros Hall. revert start.
  induction Hall as [ | x rest Hx _ IH]; intros start.
  - reflexivity.
  - cbn [fold_left]. rewrite IH. subst x. lra.
Qed.

Lemma constant_mean (b : R) (xs : list R) :
  (2 <= List.length xs)%nat -> Forall (fun x => x = b) xs ->
  mean_of xs = b /\ variance_of xs = 0.
Proof.
  intros Hlen Hall.
  assert (Hn : INR (List.length xs) <> 0).
  { apply not_0_INR. lia. }
  assert (Hmean : mean_of xs = b).
  { unfold mean_of. rewrite (sum_constant Hall). field. exact Hn. }
  split; [exact Hmean | ].
  unfold variance_of. rewrite Hmean, (squares_constant 0 Hall).
  field. exact Hn.
Qed.



Lemma clamp_formula_50 (c : R) :
  0 <= c -> Rmax 0 (Rmin 100 (100 - c * 50)) = 100 - 50 * Rmin 2 c.
Proof.
  intros Hc. unfold Rmax, Rmin.
  destruct (Rle_dec 100 (100 - c * 50)); destruct (Rle_dec 2 c);
    match goal with
    | |- context [Rle_dec 0 ?x] => destruct (Rle_dec 0 x)
    end; lra.
Qed.

Lemma sum_at_least (xs : list R) :
  Forall (fun x => 1 <= x) xs ->
  INR (List.length xs) <= fold_left (fun a b => a + b) xs 0.
Proof.
  induction 1 as [ | x rest Hx _ IH].
  - cbn. lra.
  - cbn [fold_left]. rewrite sum_from.
    change (List.length (x :: rest)) with (S (List.length rest)).
    rewrite S_INR. lra.
Qed.

(** The regularity of the monthly counts.  With fewer than two months the
    score is 30.  With two months or more, each holding at least one
    transaction (a month is only recorded when one is counted), the score
    is [100 - 50 * min(2, stdDev / mean)]: a number of [0, 100], never NaN,
    that reaches 0 only when the deviation is twice the mean. *)
Theorem calculateRegularityScore_formula
  (monthlyTransactions : list (string * R)) :
  Forall (fun entry => 1 <= snd entry) monthlyTransactions ->
  let counts := map snd monthlyTransactions in
  calculateRegularityScore monthlyTransactions =
  Finite (if (List.length monthlyTransactions <? 2)%nat then 30
          else 100 - 50 * Rmin 2 (sqrt (variance_of counts) / mean_of counts))
  /\ in_range (calculateRegularityScore monthlyTransactions).
Proof.
  intros Hall. cbv zeta.
  assert (Hcounts : Forall (fun x => 1 <= x) (map snd monthlyTransactions)).
  { apply Forall_map. exact Hall. }
  unfold calculateRegularityScore. rewrite !length_map.
  destruct (Nat.ltb_spec (List.length monthlyTransactions) 2) as [Hfew | Hlen].
  - split; [reflexivity | cbn; lra].
  - set (counts := map snd monthlyTransactions) in *.
    assert (Hn : 0 < INR (List.length counts)).
    { apply lt_0_INR. unfold counts. rewrite length_map. lia. }
    assert (Hmean : 1 <= mean_of counts).
    { unfold mean_of. pose proof (sum_at_least Hcounts) as Hsum.
      apply Rmult_le_reg_r with (r := INR (List.length counts));
        [exact Hn | ].
      unfold Rdiv. rewrite Rmult_assoc, Rinv_l by lra. lra. }
    assert (Hc : 0 <= sqrt (variance_of counts) / mean_of counts).
    { apply Rmult_le_pos; [apply sqrt_pos | ].
      left. apply Rinv_0_lt_compat. lra. }
    unfold divide. destruct (Req_dec_T (mean_of counts) 0); [lra | ].
    cbn [times minus_from Math_min Math_max].
    rewrite clamp_formula_50 by exact Hc.
    split; [reflexivity | ]. cbn [in_range]. unfold Rmin.
    destruct (Rle_dec 2 (sqrt (variance_of counts) / mean_of counts)); lra.
Qed.

Lemma calculateRegularityScore_formula_witness :
  in_range (calculateRegularityScore
              [("2024-01"%string, 12); ("2024-02"%string, 3);
               ("2024-03"%string, 7)]).
Proof.
  apply (@calculateRegularityScore_formula
           [("2024-01"%string, 12); ("2024-02"%string, 3);
            ("2024-03"%string, 7)]).
  repeat constructor; cbn; lra.
Defined.

(** Months that all hold the same number of transactions are perfectly
    regular: the score is 100. *)
Theorem equal_months_score_100 (c : R)
  (monthlyTransactions : list (string * R)) :
  0 < c -> (2 <= List.length monthlyTransactions)%nat ->
  Forall (fun entry => snd entry = c) monthlyTransactions ->
  calculateRegularityScore monthlyTransactions = Finite 100.
Proof.
  intros Hc Hlen Hall.
  assert (Hcounts : Forall (fun x => x = c) (map snd monthlyTransactions)).
  { apply Forall_map. exact Hall. }
  assert (Hlen' : (2 <= List.length (map snd monthlyTransactions))%nat)
    by (rewrite length_map; exact Hlen).
  destruct (constant_mean Hlen' Hcounts) as [Hmean Hvar].
  unfold calculateRegularityScore. rewrite !length_map.
  destruct (Nat.ltb_spec (List.length monthlyTransactions) 2); [lia | ].
  rewrite Hmean, Hvar, sqrt_0. unfold divide.
  destruct (Req_dec_T c 0); [lra | ].
  cbn [times minus_from Math_min Math_max]. f_equal.
  unfold Rmin, Rmax.
  destruct (Rle_dec 100 (100 - 0 / c * 50));
    match goal with
    | |- context [Rle_dec 0 ?x] => destruct (Rle_dec 0 x)
    end; lra.
Qed.

Lemma equal_months_score_100_witness :
  calculateRegularityScore
    [("2024-01"%string, 9); ("2024-02"%string, 9)] = Finite 100.
Proof.
  apply (@equal_months_score_100 9).
  - lra.
  - cbn. lia.
  - repeat constructor.
Defined.

End DispersionFacts.

(* ================================================================== *)
(** * Properties of the Loan methods *)
(* ================================================================== *)












(** ** The repayment schedule *)

Lemma schedule_nth (f : nat -> Installment) (start len i : nat) :
  (i < len)%nat ->
  nth_error (map f (seq start len)) i = Some (f (start + i)%nat).
Proof.
  revert start i. induction len as [ | len IH]; intros start i Hi.
  - lia.
  - destruct i as [ | i]; cbn.
    + f_equal. f_equal. lia.
    + rewrite IH by lia. f_equal. f_equal. lia.
Qed.

(** The generated schedule replaces whatever schedule the loan had, holds
    one instalment a month of the tenure, numbered 1, 2, ... without
    repetition, each pending, unpaid, due [i] months after the start and
    of the amount [emiAmount]. *)
Theorem generateRepaymentSchedule_shape (addMonths : Z -> Z -> Z) (now : Z)
  (this : Loan) :
  let generated := generateRepaymentSchedule addMonths now this in
  repaymentSchedule (fst generated) = snd generated /\
  List.length (snd generated) = tenure this /\
  (forall i, (i < tenure this)%nat ->
     nth_error (snd generated) i =
     Some (scheduled addMonths (startDateOf now this) (emiAmount this)
             (S i))) /\
  NoDup (map emiNumber (snd generated)) /\
  emiAmount (fst generated) = emiAmount this.
Proof.
  cbv zeta. unfold generateRepaymentSchedule. cbn [fst snd].
  split; [reflexivity | ].
  split; [rewrite length_map, length_seq; reflexivity | ].
  split.
  - intros i Hi. fold (startDateOf now this).
    rewrite (schedule_nth
               (fun i => mkInstallment (Z.of_nat i)
                           (addMonths (startDateOf now this) (Z.of_nat i))
                           (emiAmount this) emi_pending None None)
               1 Hi).
    reflexivity.
  - split; [ | reflexivity].
    rewrite map_map. cbn [emiNumber].
    apply Finite.Injective_map_NoDup; [ | apply seq_NoDup].
    intros x y H. lia.
Qed.




(** ** Paying instalments *)





Lemma find_skip (number : Z) (before after : list Installment) :
  (forall e, In e before -> emiNumber e <> number) ->
  find (fun e => (emiNumber e =? number)%Z) (before ++ after)
  = find (fun e => (emiNumber e =? number)%Z) after.
Proof.
  induction before as [ | e rest IH]; intros Hne; [reflexivity | ].
  cbn. destruct (Z.eqb_spec (emiNumber e) number) as [Heq | _].
  - exfalso. exact (Hne e (or_introl eq_refl) Heq).
  - apply IH. intros e' Hin. apply Hne. right. exact Hin.
Qed.

Lemma update_skip (number : Z) (f : Installment -> Installment)
  (before after : list Installment) :
  (forall e, In e before -> emiNumber e <> number) ->
  update_first number f (before ++ after)
  = (before ++ update_first number f after)%list.
Proof.
  induction before as [ | e rest IH]; intros Hne; [reflexivity | ].
  cbn. destruct (Z.eqb_spec (emiNumber e) number) as [Heq | _].
  - exfalso. exact (Hne e (or_introl eq_refl) Heq).
  - f_equal. apply IH. intros e' Hin. apply Hne. right. exact Hin.
Qed.

Lemma payInTurn_app (paidAt closedAt : Z) (amount : Q)
  (first second : list Z) (loan : Loan) :
  payInTurn paidAt closedAt amount (first ++ second) loan =
  match payInTurn paidAt closedAt amount first loan with
  | Some loan' => payInTurn paidAt closedAt amount second loan'
  | None => None
  end.
Proof.
  revert loan. induction first as [ | number rest IH]; intros loan;
    [reflexivity | ].
  cbn. destruct (payEMI paidAt closedAt number amount loan);
    try reflexivity.
  apply IH.
Qed.

Section FullRepayment.

Variable addMonths : Z -> Z -> Z.
Variables now paidAt closedAt : Z.
Variable amount : Q.
Variable this : Loan.
Variable due : Z.
Hypothesis Hdue : emiAmount this = Some due.
Hypothesis Hcovers : inject_Z due <= amount.

Let start := startDateOf now this.
Let sched := scheduled addMonths start (Some due).
Let paid := fun i => mark_paid paidAt amount (sched i).
Let fresh := fst (generateRepaymentSchedule addMonths now this).

(** The schedule after the first [k] instalments are paid. *)
Let after (k : nat) : list Installment :=
  (map paid (seq 1 k) ++ map sched (seq (S k) (tenure this - k)))%list.

Lemma fresh_is_after_0 :
  fresh = set_repaymentSchedule (after 0) this.
Proof.
  unfold fresh, after, generateRepaymentSchedule, sched, scheduled, start,
    startDateOf.
  cbn [fst seq map app]. rewrite Hdue, Nat.sub_0_r. reflexivity.
Qed.

Lemma paid_part_numbers (k : nat) (e : Installment) :
  In e (map paid (seq 1 k)) -> emiNumber e <> Z.of_nat (S k).
Proof.
  intros Hin. apply in_map_iff in Hin. destruct Hin as [i [<- Hi]].
  apply in_seq in Hi. cbn. lia.
Qed.

Lemma pay_next (k : nat) :
  (k < tenure this)%nat ->
  payEMI paidAt closedAt (Z.of_nat (S k)) amount
    (set_repaymentSchedule (after k) this)
  = if (S k =? tenure this)%nat
    then PaymentAccepted
           (addStatusHistory closedAt closed "All EMIs paid successfully"
              None
              (set_loan_status closed
                 (set_repaymentSchedule (after (S k)) this)))
           true
    else PaymentAccepted (set_repaymentSchedule (after (S k)) this) false.
Proof.
  intros Hk.
  assert (Hsplit : seq (S k) (tenure this - k)
                   = S k :: seq (S (S k)) (tenure this - S k)).
  { replace (tenure this - k)%nat with (S (tenure this - S k)) by lia.
    reflexivity. }
  assert (Hnumber : (emiNumber (sched (S k)) =? Z.of_nat (S k))%Z = true)
    by apply Z.eqb_refl.
  assert (Hfind :
    find (fun e => (emiNumber e =? Z.of_nat (S k))%Z) (after k)
    = Some (sched (S k))).
  { unfold after. rewrite find_skip by apply paid_part_numbers.
    rewrite Hsplit. cbn [map find]. rewrite Hnumber. reflexivity. }
  assert (Hupdate :
    update_first (Z.of_nat (S k)) (mark_paid paidAt amount) (after k)
    = after (S k)).
  { unfold after. rewrite update_skip by apply paid_part_numbers.
    rewrite Hsplit. cbn [map update_first]. rewrite Hnumber.
    rewrite seq_S, map_app, <- app_assoc. reflexivity. }
  assert (Hclosed :
    canBeClosed (set_repaymentSchedule (after (S k)) this)
    = (S k =? tenure this)%nat).
  { unfold canBeClosed, after.
    cbn [repaymentSchedule set_repaymentSchedule].
    rewrite forallb_app.
    replace (forallb is_paid (map paid (seq 1 (S k)))) with true.
    2:{ symmetry. apply forallb_forall. intros e Hin.
        apply in_map_iff in Hin. destruct Hin as [i [<- _]]. reflexivity. }
    cbn [andb]. destruct (Nat.eqb_spec (S k) (tenure this)) as [-> | Hne].
    - rewrite Nat.sub_diag. reflexivity.
    - replace (tenure this - S k)%nat with (S (tenure this - S (S k)))
        by lia.
      reflexivity. }
  unfold payEMI.
  change (repaymentSchedule (set_repaymentSchedule (after k) this))
    with (after k).
  rewrite Hfind, Hupdate.
  change (is_paid (sched (S k))) with false.
  change (below amount (emi_amount (sched (S k))))
    with (Qltb amount (inject_Z due)).
  replace (Qltb amount (inject_Z due)) with false.
  2:{ symmetry. unfold Qltb. apply negb_false_iff.
      apply Qle_bool_iff. exact Hcovers. }
  change (set_repaymentSchedule (after (S k))
            (set_repaymentSchedule (after k) this))
    with (set_repaymentSchedule (after (S k)) this).
  rewrite Hclosed. reflexivity.
Qed.

Lemma pay_first_part (k : nat) :
  (k < tenure this)%nat ->
  payInTurn paidAt closedAt amount (map Z.of_nat (seq 1 k)) fresh
  = Some (set_repaymentSchedule (after k) this).
Proof.
  induction k as [ | k IH]; intros Hk.
  - cbn [seq map payInTurn]. f_equal. apply fresh_is_after_0.
  - rewrite seq_S, map_app, payInTurn_app, IH by lia.
    cbn [map payInTurn]. change (Z.of_nat (1 + k)) with (Z.of_nat (S k)).
    rewrite pay_next by lia.
    destruct (Nat.eqb_spec (S k) (tenure this)); [lia | reflexivity].
Qed.

Lemma pay_everything :
  (1 <= tenure this)%nat ->
  payInTurn paidAt closedAt amount (map Z.of_nat (seq 1 (tenure this)))
    fresh
  = Some (addStatusHistory closedAt closed "All EMIs paid successfully"
            None
            (set_loan_status closed
               (set_repaymentSchedule (after (tenure this)) this))).
Proof.
  intros Hn. set (k := pred (tenure this)).
  assert (Hten : tenure this = S k) by (unfold k; lia).
  replace (seq 1 (tenure this)) with (seq 1 k ++ [S k])%list
    by (rewrite Hten, seq_S; reflexivity).
  rewrite map_app, payInTurn_app.
  rewrite pay_first_part by lia.
  cbn [map payInTurn]. rewrite pay_next by lia.
  rewrite <- Hten, Nat.eqb_refl. reflexivity.
Qed.

Lemma closable_after (k : nat) :
  (k <= tenure this)%nat ->
  canBeClosed (set_repaymentSchedule (after k) this)
  = (k =? tenure this)%nat.
Proof.
  intros Hk. unfold canBeClosed, after.
  cbn [repaymentSchedule set_repaymentSchedule].
  rewrite forallb_app.
  replace (forallb is_paid (map paid (seq 1 k))) with true.
  2:{ symmetry. apply forallb_forall. intros e Hin.
      apply in_map_iff in Hin. destruct Hin as [i [<- _]]. reflexivity. }
  cbn [andb]. destruct (Nat.eqb_spec k (tenure this)) as [-> | Hne].
  - rewrite Nat.sub_diag. reflexivity.
  - replace (tenure this - k)%nat with (S (tenure this - S k)) by lia.
    reflexivity.
Qed.

Lemma next_after (k : nat) :
  getNextEMI (set_repaymentSchedule (after k) this)
  = if (k <? tenure this)%nat then Some (sched (S k)) else None.
Proof.
  unfold getNextEMI, after.
  cbn [repaymentSchedule set_repaymentSchedule].
  assert (Hpaid : forall l,
    find is_pending (map paid (seq 1 k) ++ l) = find is_pending l).
  { intros l. induction (seq 1 k) as [ | i rest IH]; [reflexivity | ].
    cbn [map app find]. exact IH. }
  rewrite Hpaid. destruct (Nat.ltb_spec k (tenure this)) as [Hk | Hk].
  - replace (tenure this - k)%nat with (S (tenure this - S k)) by lia.
    reflexivity.
  - replace (tenure this - k)%nat with 0%nat by lia. reflexivity.
Qed.

Lemma repayment_in_order :
  (1 <= tenure this)%nat ->
  (forall k, (k < tenure this)%nat ->
     exists loan,
       payInTurn paidAt closedAt amount (map Z.of_nat (seq 1 k))
         (fst (generateRepaymentSchedule addMonths now this)) = Some loan /\
       canBeClosed loan = false /\
       loan_status loan = loan_status this /\
       getNextEMI loan =
       Some (scheduled addMonths (startDateOf now this) (Some due) (S k)))
  /\
  (exists loan,
     payInTurn paidAt closedAt amount
       (map Z.of_nat (seq 1 (tenure this)))
       (fst (generateRepaymentSchedule addMonths now this)) = Some loan /\
     canBeClosed loan = true /\
     loan_status loan = closed /\
     getNextEMI loan = None).
Proof.
  intros Hn. split.
  - intros k Hk. exists (set_repaymentSchedule (after k) this).
    split; [apply pay_first_part; exact Hk | ].
    split.
    + rewrite closable_after by lia.
      apply Nat.eqb_neq. lia.
    + split; [reflexivity | ].
      rewrite next_after.
      destruct (Nat.ltb_spec k (tenure this)); [reflexivity | lia].
  - eexists. split; [apply pay_everything; exact Hn | ].
    split.
    + change (canBeClosed
               (set_repaymentSchedule (after (tenure this)) this) = true).
      rewrite closable_after by lia. apply Nat.eqb_refl.
    + split; [reflexivity | ].
      change (getNextEMI
               (set_repaymentSchedule (after (tenure this)) this) = None).
      rewrite next_after.
      destruct (Nat.ltb_spec (tenure this) (tenure this));
        [lia | reflexivity].
Qed.

End FullRepayment.

(** Paying the instalments of a freshly generated schedule in their order,
    each with an amount that covers it, is never refused; as long as
    instalments remain the loan keeps its status, cannot be closed and
    the next instalment is the one that follows; the payment of the last
    instalment, and no earlier one, closes the loan. *)
Theorem repaying_in_order_closes_the_loan (addMonths : Z -> Z -> Z)
  (now paidAt closedAt : Z) (amount : Q) (this : Loan) (due : Z) :
  emiAmount this = Some due ->
  inject_Z due <= amount ->
  (1 <= tenure this)%nat ->
  (forall k, (k < tenure this)%nat ->
     exists loan,
       payInTurn paidAt closedAt amount (map Z.of_nat (seq 1 k))
         (fst (generateRepaymentSchedule addMonths now this)) = Some loan /\
       canBeClosed loan = false /\
       loan_status loan = loan_status this /\
       getNextEMI loan =
       Some (scheduled addMonths (startDateOf now this) (Some due) (S k)))
  /\
  (exists loan,
     payInTurn paidAt closedAt amount
       (map Z.of_nat (seq 1 (tenure this)))
       (fst (generateRepaymentSchedule addMonths now this)) = Some loan /\
     canBeClosed loan = true /\
     loan_status loan = closed /\
     getNextEMI loan = None).
Proof.
  intros Hdue Hcovers Hn. apply repayment_in_order; assumption.
Qed.

Lemma repaying_in_order_closes_the_loan_witness :
  exists loan,
    payInTurn 5 6 1900 [1; 2; 3]%Z
      (fst (generateRepaymentSchedule (fun d i => (d + 30 * i)%Z) 0
              (mkLoan 5000 18 3 (Some 1717%Z) (Some 5150%Z) disbursed
                 (Some 0%Z) [] [])))
      = Some loan /\
    loan_status loan = closed.
Proof.
  destruct (@repaying_in_order_closes_the_loan
              (fun d i => (d + 30 * i)%Z) 0 5 6 1900
              (mkLoan 5000 18 3 (Some 1717%Z) (Some 5150%Z) disbursed
                 (Some 0%Z) [] [])
              1717%Z)
    as [_ [loan [Hpaid [_ [Hstatus _]]]]].
  - reflexivity.
  - discriminate.
  - cbn. lia.
  - exists loan. split; [exact Hpaid | exact Hstatus].
Defined.

(* ================================================================== *)
(** * Properties of the User methods and of the eligibility gate *)
(* ================================================================== *)

Lemma flags_test (flags : list string) :
  (0 <? Z.of_nat (List.length flags))%Z = true <-> flags <> [].
Proof.
  destruct flags as [ | f rest]; cbn [List.length].
  - split; [discriminate | congruence].
  - split; [discriminate | intros _; apply Z.ltb_lt; lia].
Qed.

Lemma riskPoints_sum (this : User) :
  riskPoints this
  = (points (aadhaarVerified this) 10 + points (panVerified this) 10
     + points (smsAnalysisConsent this) 15
     + points (upiAnalysisConsent this) 15
     + points (income_above (user_monthlyIncome this) 10000) 20
     + points (0 <? totalLoansApproved this) 25
     - points (0 <? Z.of_nat (List.length (fraudFlags this))) 30
     - points (Qltb 0 (currentLoanAmount this)) 20)%Z.
Proof.
  unfold riskPoints.
  destruct (aadhaarVerified this), (panVerified this),
    (smsAnalysisConsent this), (upiAnalysisConsent this),
    (income_above (user_monthlyIncome this) 10000),
    (0 <? totalLoansApproved this)%Z,
    (0 <? Z.of_nat (Datatypes.length (fraudFlags this)))%Z,
    (Qltb 0 (currentLoanAmount this)); reflexivity.
Qed.

Lemma points_monotone (b1 b2 : bool) (k : Z) :
  (0 <= k)%Z -> (b1 = true -> b2 = true) ->
  (points b1 k <= points b2 k)%Z.
Proof.
  intros Hk H. destruct b1; [rewrite (H eq_refl); reflexivity | ].
  destruct b2; cbn; lia.
Qed.

(** The risk assessment never gets worse when a user gains positive
    factors or loses negative ones. *)
Theorem getRiskAssessment_monotone (better worse : User) :
  at_least_as_good better worse ->
  (riskPoints worse <= riskPoints better)%Z /\
  (rank (getRiskAssessment better) <= rank (getRiskAssessment worse))%Z.
Proof.
  intros [Ha [Hp [Hs [Hu [Hi [Hl [Hf Hc]]]]]]].
  assert (Hpoints : (riskPoints worse <= riskPoints better)%Z).
  { rewrite !riskPoints_sum.
    pose proof (@points_monotone _ _ 10 ltac:(lia) Ha).
    pose proof (@points_monotone _ _ 10 ltac:(lia) Hp).
    pose proof (@points_monotone _ _ 15 ltac:(lia) Hs).
    pose proof (@points_monotone _ _ 15 ltac:(lia) Hu).
    pose proof (@points_monotone _ _ 20 ltac:(lia) Hi).
    assert (points (0 <? totalLoansApproved worse) 25
            <= points (0 <? totalLoansApproved better) 25)%Z.
    { apply points_monotone; [lia | ]. intros H'. apply Z.ltb_lt.
      apply Hl. apply Z.ltb_lt. exact H'. }
    assert (points (0 <? Z.of_nat (List.length (fraudFlags better))) 30
            <= points (0 <? Z.of_nat (List.length (fraudFlags worse))) 30)%Z.
    { apply points_monotone; [lia | ]. intros H'. apply flags_test.
      apply Hf. apply flags_test. exact H'. }
    assert (points (Qltb 0 (currentLoanAmount better)) 20
            <= points (Qltb 0 (currentLoanAmount worse)) 20)%Z.
    { apply points_monotone; [lia | ]. intros H'. apply Qltb_lt.
      apply Hc. apply Qltb_lt. exact H'. }
    lia. }
  split; [exact Hpoints | ].
  unfold getRiskAssessment.
  destruct (Z.leb_spec 60 (riskPoints better));
    destruct (Z.leb_spec 30 (riskPoints better));
    destruct (Z.leb_spec 60 (riskPoints worse));
    destruct (Z.leb_spec 30 (riskPoints worse)); cbn; lia.
Qed.

Lemma getRiskAssessment_monotone_witness :
  Z.le
    (rank (getRiskAssessment
             (mkUser true true true true (Some 15000) 0 0 [] true)))
    (rank (getRiskAssessment
             (mkUser true false true false None 0 0 [] true))).
Proof.
  apply (@getRiskAssessment_monotone
           (mkUser true true true true (Some 15000) 0 0 [] true)
           (mkUser true false true false None 0 0 [] true)).
  unfold at_least_as_good. cbn.
  repeat split; intros; try reflexivity; try discriminate; try lia;
    try congruence.
Defined.

(** The points lie between -50 and 95, and a user who carries a fraud flag
    and an outstanding loan is never assessed [low]. *)
Theorem flagged_borrower_is_never_low (this : User) :
  (-50 <= riskPoints this <= 95)%Z /\
  (fraudFlags this <> [] -> 0 < currentLoanAmount this ->
   getRiskAssessment this <> low).
Proof.
  rewrite riskPoints_sum. split.
  - unfold points.
    destruct (aadhaarVerified this), (panVerified this),
      (smsAnalysisConsent this), (upiAnalysisConsent this),
      (income_above (user_monthlyIncome this) 10000),
      (0 <? totalLoansApproved this)%Z,
      (0 <? Z.of_nat (Datatypes.length (fraudFlags this)))%Z,
      (Qltb 0 (currentLoanAmount this)); lia.
  - intros Hflag Hloan. unfold getRiskAssessment. rewrite riskPoints_sum.
    apply flags_test in Hflag. apply Qltb_lt in Hloan.
    rewrite Hflag, Hloan. unfold points.
    destruct (aadhaarVerified this), (panVerified this),
      (smsAnalysisConsent this), (upiAnalysisConsent this),
      (income_above (user_monthlyIncome this) 10000),
      (0 <? totalLoansApproved this)%Z; cbn; discriminate.
Qed.

Lemma flagged_borrower_is_never_low_witness :
  getRiskAssessment
    (mkUser true true true true (Some 15000) 2 5000 ["otp_abuse"] true)
  <> low.
Proof.
  apply (flagged_borrower_is_never_low
           (mkUser true true true true (Some 15000) 2 5000 ["otp_abuse"]
              true)).
  - discriminate.
  - reflexivity.
Defined.

(** The gate lets a user pass exactly when [isEligibleForLoan] holds.  When
    it refuses it names a reason, except for a user who is verified and
    active and whose current loan amount is negative: that user is refused
    with an empty list of reasons. *)
Theorem requireLoanEligibility_reasons (userData : User) :
  (requireLoanEligibility userData = Next
     <-> isEligibleForLoan userData = true) /\
  (requireLoanEligibility userData = Forbidden []
     <-> aadhaarVerified userData = true /\ panVerified userData = true /\
         isActive userData = true /\ currentLoanAmount userData < 0).
Proof.
  assert (Hsign :
    Qeq_bool (currentLoanAmount userData) 0 = false /\
    Qltb 0 (currentLoanAmount userData) = false
    <-> currentLoanAmount userData < 0).
  { split.
    - intros [Hz Hp].
      destruct (Qlt_le_dec (currentLoanAmount userData) 0) as [Hn | Hn];
        [exact Hn | exfalso].
      apply Qle_lteq in Hn. destruct Hn as [Hn | Hn].
      + apply Qltb_lt in Hn. congruence.
      + symmetry in Hn. apply Qeq_bool_iff in Hn. congruence.
    - intros Hneg. split.
      + destruct (Qeq_bool (currentLoanAmount userData) 0) eqn:E;
          [ | reflexivity].
        apply Qeq_bool_iff in E. lra.
      + destruct (Qltb 0 (currentLoanAmount userData)) eqn:E;
          [ | reflexivity].
        apply Qltb_lt in E. lra. }
  unfold requireLoanEligibility, isEligibleForLoan.
  destruct (aadhaarVerified userData), (panVerified userData),
    (isActive userData);
    destruct (Qeq_bool (currentLoanAmount userData) 0) eqn:Hz;
    destruct (Qltb 0 (currentLoanAmount userData)) eqn:Hpos;
    cbn;
    (split; split; intros H; try discriminate H; try reflexivity);
    try (match type of H with
         | _ /\ _ => destruct H as [Ha [Hp [Hact Hneg]]]
         end; try discriminate;
         apply Hsign in Hneg; destruct Hneg; congruence).
  repeat split. apply Hsign. split; reflexivity.
Qed.

(* ================================================================== *)
(** * Properties of the loan application *)
(* ================================================================== *)

Lemma Qle_bool_false (x y : Q) : Qle_bool x y = false <-> y < x.
Proof.
  split.
  - intros H. apply Qnot_le_lt. intros Hle. apply Qle_bool_iff in Hle.
    congruence.
  - intros H. destruct (Qle_bool x y) eqn:E; [ | reflexivity].
    apply Qle_bool_iff in E. lra.
Qed.

(** An application is only submitted within the limit of the stored
    recommendation.  When that recommendation is the one
    [generateLoanRecommendation] derives from the stored score, a request
    for a positive amount is therefore refused for every score below 600;
    a submitted application is under review or approved, never rejected,
    and its interest rate lies between 12 and 19.5. *)
Theorem application_needs_an_eligible_score (now : Z)
  (stored : CreditAnalysis) (final : Z) (amount : Q) (months : nat)
  (application : Application) :
  0 < amount ->
  applyForLoan now
    (Some (fst (generateLoanRecommendation
                  (set_alternativeCreditScore final stored))))
    amount months = Submitted application ->
  (600 <= final)%Z /\
  amount <= 100000 /\
  loan_status (application_loan application) <> rejected /\
  12 <= interestRate (application_loan application) <= 39 # 2.
Proof.
  intros Hamount. unfold applyForLoan.
  pose proof (recommendation_fields stored final) as Hfields.
  cbv zeta in Hfields.
  change (loanRecommendation
            (fst (generateLoanRecommendation
                    (set_alternativeCreditScore final stored))))
    with (Some (snd (generateLoanRecommendation
                       (set_alternativeCreditScore final stored)))).
  change (alternativeCreditScore
            (fst (generateLoanRecommendation
                    (set_alternativeCreditScore final stored))))
    with (Some final).
  destruct (snd (generateLoanRecommendation
                   (set_alternativeCreditScore final stored)))
    as [e m r i t c].
  unfold terms_of, block, spec_terms in Hfields.
  cbn [eligible maxLoanAmount recommendedAmount suggestedInterestRate
       maxTenure option_map] in *.
  unfold exceeds.
  destruct (Qltb (inject_Z m) amount) eqn:Hlimit; [discriminate | ].
  assert (Hle : amount <= inject_Z m).
  { unfold Qltb in Hlimit. apply negb_false_iff in Hlimit.
    apply Qle_bool_iff. exact Hlimit. }
  intros H. injection H as <-.
  cbn [application_loan loan_status interestRate addStatusHistory
       set_loan_status push_history fst snd calculateEMI].
  destruct (Z.ltb_spec final 600) as [Hlow | Hok].
  - inversion Hfields; subst. change (inject_Z 0) with 0 in Hle. lra.
  - split; [exact Hok | ].
    assert (Hm : inject_Z m <= 100000 /\ 12 <= i <= 18 /\
                 Qeq_bool i 0 = false).
    { destruct (Z.ltb_spec final 650); [ | destruct (Z.ltb_spec final 750)];
        inversion Hfields; subst; repeat split; discriminate. }
    destruct Hm as [Hm [[Hi1 Hi2] Hrate]].
    split; [lra | ].
    unfold rate_or_default. rewrite Hrate.
    assert (Hsame : forall l, interestRate (fst (calculateEMI l))
                              = interestRate l).
    { intros l. unfold calculateEMI.
      match goal with
      | |- context [if ?b then _ else _] => destruct b
      end; reflexivity. }
    rewrite Hsame. cbn [interestRate].
    split.
    + destruct ((650 <=? final)%Z
                && confidence_at_least (confidenceLevel stored) 0.7);
        [cbn; discriminate | ].
      destruct (Z.ltb_spec final 500); [lia | cbn; discriminate].
    + destruct (Qltb 50000 amount); destruct (18 <? months)%nat; lra.
Qed.

Lemma application_needs_an_eligible_score_witness :
  exists application,
    applyForLoan 0
      (Some (fst (generateLoanRecommendation
                    (set_alternativeCreditScore 700
                       (newCreditAnalysis 1 0)))))
      20000 12 = Submitted application /\
    loan_status (application_loan application) <> rejected.
Proof.
  eexists. split; [reflexivity | ].
  apply (@application_needs_an_eligible_score 0 (newCreditAnalysis 1 0)
           700 20000 12).
  - reflexivity.
  - reflexivity.
Defined.

Lemma submitted_fields (now : Z) (analysis : CreditAnalysis) (amount : Q)
  (months : nat) (application : Application) :
  applyForLoan now (Some analysis) amount months = Submitted application ->
  application_creditScore application = alternativeCreditScore analysis /\
  application_riskScore application =
    option_map (fun s => (100 - inject_Z s) / 10)
      (alternativeCreditScore analysis) /\
  application_confidence application = confidenceLevel analysis /\
  loan_status (application_loan application) =
    (if geb (alternativeCreditScore analysis) 650
        && confidence_at_least (confidenceLevel analysis) 0.7
     then approved
     else if score_below (alternativeCreditScore analysis) 500
          then rejected else under_review) /\
  approves_user application =
    (geb (alternativeCreditScore analysis) 650
     && confidence_at_least (confidenceLevel analysis) 0.7).
Proof.
  unfold applyForLoan.
  destruct (exceeds amount
              (option_map maxLoanAmount (loanRecommendation analysis)));
    [discriminate | ].
  intros H. injection H as <-.
  cbn [application_creditScore application_riskScore
       application_confidence application_loan approves_user].
  repeat split;
    destruct (geb (alternativeCreditScore analysis) 650
              && confidence_at_least (confidenceLevel analysis) 0.7);
    try reflexivity;
    destruct (score_below (alternativeCreditScore analysis) 500);
    reflexivity.
Qed.

(** The risk score the application stores is [(100 - score) / 10]: for
    every credit score of the scale from 300 to 900 it lies between -80
    and -20, below zero. *)
Theorem application_risk_score_is_negative (now : Z)
  (analysis : CreditAnalysis) (final : Z) (amount : Q) (months : nat)
  (application : Application) :
  applyForLoan now (Some analysis) amount months = Submitted application ->
  alternativeCreditScore analysis = Some final ->
  (300 <= final <= 900)%Z ->
  exists risk,
    application_riskScore application = Some risk /\
    -80 <= risk <= -20.
Proof.
  intros Hcall Hscore [Hlo Hhi].
  destruct (@submitted_fields _ _ _ _ _ Hcall) as [_ [Hrisk _]].
  rewrite Hscore in Hrisk. cbn [option_map] in Hrisk.
  exists ((100 - inject_Z final) / 10). split; [exact Hrisk | ].
  rewrite Zle_Qle in Hlo, Hhi.
  change (inject_Z 300) with 300 in Hlo.
  change (inject_Z 900) with 900 in Hhi.
  split.
  - apply Qle_shift_div_l; [reflexivity | lra].
  - apply Qle_shift_div_r; [reflexivity | lra].
Qed.

Lemma application_risk_score_is_negative_witness :
  exists application risk,
    applyForLoan 0
      (Some (fst (generateLoanRecommendation
                    (set_alternativeCreditScore 700
                       (newCreditAnalysis 1 0)))))
      20000 12 = Submitted application /\
    application_riskScore application = Some risk /\ risk <= -20.
Proof.
  eexists.
  destruct (@application_risk_score_is_negative 0
              (fst (generateLoanRecommendation
                      (set_alternativeCreditScore 700
                         (newCreditAnalysis 1 0))))
              700 20000 12 _ eq_refl eq_refl)
    as [risk [Hrisk [_ Hneg]]].
  - lia.
  - exists risk. split; [reflexivity | split; [exact Hrisk | exact Hneg]].
Defined.



(* ================================================================== *)
(** * Properties of the one-time passwords and of the sync queue *)
(* ================================================================== *)

(** A stored password verifies once.  The call that succeeds removes it, so
    that every later call for the same number fails, whatever it provides;
    a call that fails leaves the cache as it was, so a wrong guess costs
    nothing; and no call touches the password of another number. *)
Theorem verifyOTP_single_use (phoneNumber providedOTP : string)
  (otpCache : Cache string) :
  let answer := verifyOTP phoneNumber providedOTP otpCache in
  (fst answer = true <->
     otpCache phoneNumber = Some providedOTP /\ providedOTP <> "") /\
  (fst answer = true ->
     forall again, fst (verifyOTP phoneNumber again (snd answer)) = false) /\
  (fst answer = false -> snd answer = otpCache) /\
  (forall other, other <> phoneNumber ->
     snd answer other = otpCache other).
Proof.
  cbv zeta. unfold verifyOTP.
  destruct (otpCache phoneNumber) as [stored | ] eqn:Hstored.
  - destruct (String.eqb_spec stored "") as [Hempty | Hfull].
    + cbn. repeat split; intros; try discriminate; try reflexivity.
      destruct H as [H1 H2]. congruence.
    + destruct (String.eqb_spec stored providedOTP) as [Heq | Hne]; cbn.
      * subst stored.
        split; [split; [intros _; split; [reflexivity | exact Hfull]
                       | reflexivity] | ].
        split.
        { intros _ again. unfold cache_del. rewrite String.eqb_refl.
          reflexivity. }
        split; [discriminate | ].
        intros other Hother. unfold cache_del.
        destruct (String.eqb_spec other phoneNumber); [contradiction | ].
        reflexivity.
      * repeat split; intros; try discriminate; try reflexivity.
        destruct H as [H1 H2]. congruence.
  - cbn. repeat split; intros; try discriminate; try reflexivity.
    destruct H as [H1 H2]. congruence.
Qed.

Lemma verifyOTP_single_use_witness :
  fst (verifyOTP "9876543210" "482913"
         (snd (verifyOTP "9876543210" "482913"
                 (cache_set "9876543210" "482913" (fun _ => None)))))
  = false.
Proof.
  destruct (verifyOTP_single_use "9876543210" "482913"
              (cache_set "9876543210" "482913" (fun _ => None)))
    as [_ [Honce _]].
  apply Honce. reflexivity.
Defined.

Lemma increment_present (syncKey : string) (queue : Cache SyncItem)
  (item : SyncItem) :
  queue syncKey = Some item ->
  incrementRetryCount syncKey queue syncKey =
  if (3 <? retryCount item + 1)%Z then None
  else Some (mkSyncItem (sync_action item) (sync_data item)
               (sync_timestamp item) (retryCount item + 1)).
Proof.
  intros H. unfold incrementRetryCount. rewrite H.
  cbn [retryCount].
  destruct (3 <? retryCount item + 1)%Z;
    unfold cache_del, cache_set; rewrite String.eqb_refl; reflexivity.
Qed.

(** An item queued with a retry count of 0 survives three failed syncs,
    its count going to 1, 2 and 3, and is removed by the fourth; further
    failures find nothing to count. *)
Theorem sync_item_survives_three_failures (syncKey : string)
  (queue : Cache SyncItem) (action data : string) (queuedAt : Z)
  (failures : nat) :
  queue syncKey = Some (mkSyncItem action data queuedAt 0) ->
  Nat.iter failures (incrementRetryCount syncKey) queue syncKey =
  if (failures <=? 3)%nat
  then Some (mkSyncItem action data queuedAt (Z.of_nat failures))
  else None.
Proof.
  intros Hqueued. induction failures as [ | n IH].
  - exact Hqueued.
  - rewrite Nat.iter_succ. destruct (Nat.leb_spec n 3) as [Hn | Hn].
    + rewrite (@increment_present _ _ _ IH). cbn [retryCount sync_action
        sync_data sync_timestamp].
      destruct (Nat.leb_spec (S n) 3) as [Hs | Hs].
      * destruct (Z.ltb_spec 3 (Z.of_nat n + 1)); [lia | ].
        do 2 f_equal. lia.
      * destruct (Z.ltb_spec 3 (Z.of_nat n + 1)); [reflexivity | lia].
    + destruct (Nat.leb_spec (S n) 3); [lia | ].
      unfold incrementRetryCount at 1. rewrite IH. exact IH.
Qed.

Lemma sync_item_survives_three_failures_witness :
  Nat.iter 3 (incrementRetryCount "sync_42_1700000000000")
    (cache_set "sync_42_1700000000000"
       (mkSyncItem "emi_payment" "emi 3" 1700000000000 0) (fun _ => None))
    "sync_42_1700000000000"
  = Some (mkSyncItem "emi_payment" "emi 3" 1700000000000 3).
Proof.
  apply (@sync_item_survives_three_failures "sync_42_1700000000000"
           (cache_set "sync_42_1700000000000"
              (mkSyncItem "emi_payment" "emi 3" 1700000000000 0) (fun _ => None))
           "emi_payment" "emi 3" 1700000000000 3).
  reflexivity.
Defined.
(* ================================================================== *)
(** * Further properties of the component scorer and the entry point *)
(* ================================================================== *)

Lemma rounded_mean_in_range (a b : Q) :
  0 <= a <= 100 -> 0 <= b <= 100 ->
  exists z, rounded_mean a b = Some (inject_Z z) /\ (0 <= z <= 100)%Z.
Proof.
  intros Ha Hb. exists (Math_round ((a + b) / 2)).
  split; [reflexivity | ].
  apply Math_round_between.
  - change (inject_Z 0) with 0. apply Qle_shift_div_l; [reflexivity | lra].
  - change (inject_Z 100) with 100.
    apply Qle_shift_div_r; [reflexivity | lra].
Qed.

(** Whatever the two missing scorers are bound to: when the component
    scorer returns, the five weights are not zero and sum to 1, the two
    bound scores are stored as they were returned, and every score derived
    from summary metrics in [0, 100] is a whole number of [0, 100]; when it
    raises, the error is the one of the first scorer that raised. *)
Theorem calculateScoreComponents_invariants
  (stability : SMSAnalysis -> UserData -> result Q)
  (social : UPIAnalysis -> MobileAnalysis -> result Q)
  (smsAnalysis : SMSAnalysis) (upiAnalysis : UPIAnalysis)
  (mobileAnalysis : MobileAnalysis) (userData : UserData) :
  match calculateScoreComponentsWith stability social smsAnalysis
          upiAnalysis mobileAnalysis userData with
  | Ok components =>
      total weightOf (component_entries components) == 1 /\
      (forall c, In c (component_entries components) ->
                 truthy (weight c) = true) /\
      stability smsAnalysis userData
        = Ok (value (score (financialStability components))) /\
      social upiAnalysis mobileAnalysis
        = Ok (value (score (socialSignals components))) /\
      (0 <= regularityScore smsAnalysis <= 100 ->
       0 <= paymentRegularity upiAnalysis <= 100 ->
       0 <= balanceStability smsAnalysis <= 100 ->
       0 <= consistencyScore mobileAnalysis <= 100 ->
       0 <= digitalFootprintScore upiAnalysis <= 100 ->
       0 <= merchantDiversity smsAnalysis <= 100 ->
       forall c,
         In c [ transactionBehavior components;
                paymentRegularity_component components;
                digitalEngagement components ] ->
         exists z, score c = Some (inject_Z z) /\ (0 <= z <= 100)%Z)
  | Throw e =>
      stability smsAnalysis userData = Throw e \/
      (exists q, stability smsAnalysis userData = Ok q) /\
      social upiAnalysis mobileAnalysis = Throw e
  end.
Proof.
  unfold calculateScoreComponentsWith.
  destruct (stability smsAnalysis userData) as [q1 | e1];
    [ | left; reflexivity].
  destruct (social upiAnalysis mobileAnalysis) as [q2 | e2];
    [ | right; split; [exists q1; reflexivity | reflexivity]].
  cbn [bind].
  split; [reflexivity | ].
  split.
  { intros c Hin. cbn in Hin.
    destruct Hin as [<- | [<- | [<- | [<- | [<- | []]]]]]; reflexivity. }
  split; [reflexivity | ]. split; [reflexivity | ].
  intros H1 H2 H3 H4 H5 H6 c Hin. cbn in Hin.
  destruct Hin as [<- | [<- | [<- | []]]]; cbn [score];
    apply rounded_mean_in_range; assumption.
Qed.
Lemma initial_score_range (a : CreditAnalysis) (stability social : Q) :
  0 <= stability <= 100 -> 0 <= social <= 100 ->
  (387 <= snd (calculateCreditScore
                 (set_creditScoreComponents
                    (withFixedWeights 30 15 20 stability social) a))
       <= 597)%Z.
Proof.
  intros Hst Hso. rewrite calculateCreditScore_counted.
  cbn [creditScoreComponents set_creditScoreComponents].
  unfold component_entries, withFixedWeights.
  cbn [transactionBehavior paymentRegularity_component digitalEngagement
       financialStability socialSignals filter].
  rewrite !counted_entry.
  change (Qeq_bool 30 0) with false. change (Qeq_bool 15 0) with false.
  change (Qeq_bool 20 0) with false.
  change (Qeq_bool 0.25 0) with false. change (Qeq_bool 0.20 0) with false.
  change (Qeq_bool 0.10 0) with false. cbn [negb andb].
  rewrite !andb_true_r.
  destruct (Qeq_bool stability 0) eqn:Est;
    destruct (Qeq_bool social 0) eqn:Eso; cbn [negb];
    try (apply Qeq_bool_iff in Est); try (apply Qeq_bool_iff in Eso);
    apply (@aggregate_between _ 387 597 14.5 49.5);
    rewrite ?total_cons; unfold weighted, weightOf;
    cbn [total fold_right value score weight];
    change (inject_Z 387) with 387; change (inject_Z 597) with 597;
    lra.
Qed.

Lemma calculateCreditScore_assigns (this : CreditAnalysis) :
  snd (calculateCreditScore this) <> 300%Z ->
  fst (calculateCreditScore this) =
  set_alternativeCreditScore (snd (calculateCreditScore this)) this.
Proof.
  unfold calculateCreditScore.
  destruct (Qeq_bool _ 0); cbn [fst snd]; [congruence | reflexivity].
Qed.

(** With the five missing helpers bound to functions that return (the two
    scorers with scores in [0, 100]), a store that answers and accepts the
    save: the entry point returns an analysis for every request.  Its score
    lies in [387, 615], so the tier is never low and the loan never exceeds
    25000; the tier is medium and the loan eligible exactly from 600; the
    stored summaries are the defaults, no flag and no indicator is raised
    and the confidence is 0.3. *)
Theorem bound_helpers_give_a_capped_analysis
  (stability : SMSAnalysis -> UserData -> result Q)
  (social : UPIAnalysis -> MobileAnalysis -> result Q)
  (smsRange : payload (option SMS) -> result DateRange)
  (upiRange : payload (option UPITransaction) -> result DateRange)
  (mobileRange : payload (option MobileItem) -> result DateRange)
  (h : Host) (u : Unreached) (user : Z) (userData : UserData)
  (found : option CreditAnalysis) :
  findOne h user = Ok found ->
  (forall a, save h a = Ok tt) ->
  (forall s d, exists q, stability s d = Ok q /\ 0 <= q <= 100) ->
  (forall p m, exists q, social p m = Ok q /\ 0 <= q <= 100) ->
  (forall x, exists r, smsRange x = Ok r) ->
  (forall x, exists r, upiRange x = Ok r) ->
  (forall x, exists r, mobileRange x = Ok r) ->
  exists a final r,
    calculateAlternativeCreditScoreWith stability social smsRange upiRange
      mobileRange h u user userData = Ok a /\
    alternativeCreditScore a = Some final /\
    (387 <= final <= 615)%Z /\
    riskCategory a = Some (if (600 <=? final)%Z then medium else high) /\
    loanRecommendation a = Some r /\
    eligible r = (600 <=? final)%Z /\
    (maxLoanAmount r <= 25000)%Z /\
    smsAnalysis a = getDefaultSMSAnalysis /\
    upiAnalysis a = getDefaultUPIAnalysis /\
    redFlags a = [] /\ positiveIndicators a = [] /\
    confidenceLevel a = Some 0.3.
Proof.
  intros Hfind Hsave Hst Hso Hr1 Hr2 Hr3.
  unfold calculateAlternativeCreditScoreWith.
  rewrite Hfind. cbn [bind].
  rewrite analyzeSMSTransactions_default, analyzeUPITransactions_default,
    analyzeMobileUsage_cases.
  cbn [bind].
  set (mobile := match or_empty (mobileData userData) with
                 | Items data =>
                     if nonEmpty data && withoutRecharge data
                     then initialMobileAnalysis else getDefaultMobileAnalysis
                 | _ => getDefaultMobileAnalysis
                 end).
  set (base := match found with
               | Some stored => stored
               | None => newCreditAnalysis user (now h)
               end).
  destruct (Hst getDefaultSMSAnalysis userData) as [q1 [Hq1 B1]].
  destruct (Hso getDefaultUPIAnalysis mobile) as [q2 [Hq2 B2]].
  destruct (Hr1 (smsData userData)) as [r1 Hr1'].
  destruct (Hr2 (upiData userData)) as [r2 Hr2'].
  destruct (Hr3 (mobileData userData)) as [r3 Hr3'].
  unfold calculateScoreComponentsWith.
  rewrite Hq1, Hq2, Hr1', Hr2', Hr3'. cbn [bind].
  rewrite Hsave. cbn [bind try_catch].
  assert (Hflags : identifyRedFlags getDefaultSMSAnalysis
                     getDefaultUPIAnalysis mobile = [])
    by reflexivity.
  assert (Hind : identifyPositiveIndicators getDefaultSMSAnalysis
                   getDefaultUPIAnalysis mobile = [])
    by reflexivity.
  assert (Hconf : calculateConfidenceLevel getDefaultSMSAnalysis
                    getDefaultUPIAnalysis mobile = 0.3).
  { unfold calculateConfidenceLevel.
    replace (rechargeFrequency mobile) with 0%Z; [reflexivity | ].
    unfold mobile. destruct (or_empty (mobileData userData)) as [ | d | ];
      try reflexivity.
    destruct (nonEmpty d && withoutRecharge d); reflexivity. }
  rewrite Hflags, Hind, Hconf.
  set (document :=
         set_mobileUsage mobile
           (set_upiAnalysis getDefaultUPIAnalysis
              (set_smsAnalysis getDefaultSMSAnalysis base))).
  assert (Hcomponents :
            exists s2,
              (s2 = 30 /\ mobile = getDefaultMobileAnalysis \/
               s2 = 15 /\ mobile = initialMobileAnalysis)).
  { unfold mobile. destruct (or_empty (mobileData userData)) as [ | d | ];
      try (exists 30; left; split; reflexivity).
    destruct (nonEmpty d && withoutRecharge d);
      [exists 15; right | exists 30; left]; split; reflexivity. }
  destruct Hcomponents as [s2 Hs2].
  match goal with
  | |- context [calculateCreditScore (set_creditScoreComponents ?c _)] =>
      set (components := c)
  end.
  assert (Hrange : (387 <= snd (calculateCreditScore
                                  (set_creditScoreComponents components
                                     document)) <= 615)%Z).
  { destruct Hs2 as [[-> Hm] | [-> Hm]].
    - assert (Hc : components = withFixedWeights 30 30 20 q1 q2)
        by (unfold components; rewrite Hm; reflexivity).
      rewrite Hc.
      pose proof (default_score_range document B1 B2). lia.
    - assert (Hc : components = withFixedWeights 30 15 20 q1 q2)
        by (unfold components; rewrite Hm; reflexivity).
      rewrite Hc.
      pose proof (initial_score_range document B1 B2). lia. }
  rewrite calculateCreditScore_assigns by lia.
  set (final := snd (calculateCreditScore
                       (set_creditScoreComponents components document)))
    in *.
  clearbody final.
  eexists. exists final. eexists.
  split; [reflexivity | ].
  cbn [alternativeCreditScore set_alternativeCreditScore
       set_dataSourcesUsed set_analysisDate set_confidenceLevel
       set_positiveIndicators set_redFlags set_riskCategory
       set_loanRecommendation fst snd determineRiskCategory
       generateLoanRecommendation riskCategory loanRecommendation
       smsAnalysis upiAnalysis redFlags positiveIndicators confidenceLevel
       set_creditScoreComponents document set_mobileUsage set_upiAnalysis
       set_smsAnalysis].
  rewrite !geb_some.
  split; [reflexivity | ]. split; [exact Hrange | ].
  destruct (Z.leb_spec 750 final) as [H750 | _]; [lia | ].
  destruct (Z.leb_spec 650 final) as [H650 | _]; [lia | ].
  split; [reflexivity | ]. split; [reflexivity | ].
  destruct (600 <=? final)%Z.
  - cbn [is_medium].
    destruct (0 <? Z.of_nat (Datatypes.length (redFlags base)))%Z;
      repeat split; cbn; lia.
  - repeat split. cbn. lia.
Qed.

Lemma bound_helpers_give_a_capped_analysis_witness :
  exists a final r,
    calculateAlternativeCreditScoreWith (fun _ _ => Ok 50)
      (fun _ _ => Ok 50) (fun _ => Ok (mkDateRange None None))
      (fun _ => Ok (mkDateRange None None)) (fun _ => Ok (mkDateRange None None))
      freshHost idle 7 emptyInput = Ok a /\
    alternativeCreditScore a = Some final /\
    (387 <= final <= 615)%Z /\
    riskCategory a = Some (if (600 <=? final)%Z then medium else high) /\
    loanRecommendation a = Some r /\
    eligible r = (600 <=? final)%Z /\
    (maxLoanAmount r <= 25000)%Z /\
    smsAnalysis a = getDefaultSMSAnalysis /\
    upiAnalysis a = getDefaultUPIAnalysis /\
    redFlags a = [] /\ positiveIndicators a = [] /\
    confidenceLevel a = Some 0.3.
Proof.
  apply (@bound_helpers_give_a_capped_analysis _ _ _ _ _ freshHost idle 7
           emptyInput None).
  - reflexivity.
  - intros a. reflexivity.
  - intros s d. exists 50. split; [reflexivity | split; discriminate].
  - intros p m. exists 50. split; [reflexivity | split; discriminate].
  - intros x. eexists. reflexivity.
  - intros x. eexists. reflexivity.
  - intros x. eexists. reflexivity.
Defined.
